(** * SalonPilot, services page: coercion helpers, validation and submit flow

    Shallow embedding of [client/src/pages/services.tsx].  The page is
    dynamically typed glue ([unknown] and [any] values flow from the form and
    from the query cache into the payload), so the embedding works on a type
    of JavaScript values and keeps the source's names. *)

From Stdlib Require Import ZArith NArith List String Ascii Bool Lia.
From Stdlib Require Import Floats.SpecFloat.
Import ListNotations.

Local Open Scope Z_scope.

(** ** JavaScript strings

    A JavaScript string is a sequence of UTF-16 code units. *)

Definition code_unit := N.
Definition js_string := list code_unit.

(** Code units of a source literal written in UTF-8 (one to three bytes per
    code point, which covers the literals of the page). *)
Fixpoint utf16_of_bytes (fuel : nat) (bs : list N) : js_string :=
  match fuel with
  | O => []
  | S fuel' =>
      match bs with
      | [] => []
      | b0 :: r0 =>
          if (b0 <? 128)%N then b0 :: utf16_of_bytes fuel' r0
          else if (b0 <? 224)%N then
            match r0 with
            | b1 :: r1 =>
                ((b0 - 192) * 64 + (b1 - 128))%N :: utf16_of_bytes fuel' r1
            | [] => [b0]
            end
          else
            match r0 with
            | b1 :: b2 :: r2 =>
                ((b0 - 224) * 4096 + (b1 - 128) * 64 + (b2 - 128))%N
                  :: utf16_of_bytes fuel' r2
            | _ => b0 :: r0
            end
      end
  end.

Definition lit (s : string) : js_string :=
  let bs := List.map N_of_ascii (list_ascii_of_string s) in
  utf16_of_bytes (List.length bs) bs.

Definition code_unit_eqb : code_unit -> code_unit -> bool := N.eqb.

Fixpoint js_string_eqb (a b : js_string) : bool :=
  match a, b with
  | [], [] => true
  | x :: a', y :: b' => code_unit_eqb x y && js_string_eqb a' b'
  | _, _ => false
  end.

(** ** JavaScript numbers: IEEE 754 binary64 *)

Definition number := spec_float.

Definition prec64 : Z := 53.
Definition emax64 : Z := 1024.

Definition NaN : number := S754_nan.
Definition pos_zero : number := S754_zero false.
Definition neg_zero : number := S754_zero true.
Definition pos_infinity : number := S754_infinity false.
Definition neg_infinity : number := S754_infinity true.

(** The double nearest to the integer [z] (ties to even). *)
Definition number_of_Z (z : Z) : number := binary_normalize prec64 emax64 z 0 false.

(** The double nearest to [m * 10 ^ e10], signed by [neg]. *)
Definition number_of_decimal (neg : bool) (m : Z) (e10 : Z) : number :=
  match m with
  | Zpos p =>
      if 0 <=? e10 then
        binary_normalize prec64 emax64
          ((if neg then Z.opp else fun z => z) (Zpos p * 10 ^ e10)) 0 neg
      else
        match 10 ^ (- e10) with
        | Zpos d => SFdiv prec64 emax64 (S754_finite neg p 0) (S754_finite false d 0)
        | _ => NaN
        end
  | _ => S754_zero neg
  end.

(** ** JavaScript values *)

#[local] Set Warnings "-register-all".

Inductive JsValue : Type :=
| VUndefined
| VNull
| VBool (b : bool)
| VNumber (n : number)
| VString (s : js_string)
| VArray (items : list JsValue)
| VObject (props : list (js_string * JsValue)).

Module Js.

(** [typeof v], restricted to the values of [JsValue]. *)
Inductive TypeTag := TUndefined | TObject | TBoolean | TNumber | TString.

Definition typeof (v : JsValue) : TypeTag :=
  match v with
  | VUndefined => TUndefined
  | VNull => TObject
  | VBool _ => TBoolean
  | VNumber _ => TNumber
  | VString _ => TString
  | VArray _ => TObject
  | VObject _ => TObject
  end.

(** [Number.isFinite] on a value of type number. *)
Definition isFinite (n : number) : bool :=
  match n with
  | S754_zero _ | S754_finite _ _ _ => true
  | S754_infinity _ | S754_nan => false
  end.

Definition isNaN (n : number) : bool :=
  match n with
  | S754_nan => true
  | _ => false
  end.

(** [Array.isArray]. *)
Definition isArray (v : JsValue) : bool :=
  match v with
  | VArray _ => true
  | _ => false
  end.

(** ToBoolean: the falsy values are undefined, null, false, +0, -0, NaN
    and the empty string. *)
Definition truthy (v : JsValue) : bool :=
  match v with
  | VUndefined | VNull => false
  | VBool b => b
  | VNumber (S754_zero _) | VNumber S754_nan => false
  | VNumber _ => true
  | VString [] => false
  | VString _ => true
  | VArray _ | VObject _ => true
  end.

Definition nullish (v : JsValue) : bool :=
  match v with
  | VUndefined | VNull => true
  | _ => false
  end.

(** [a ?? b]. *)
Definition coalesce (a b : JsValue) : JsValue := if nullish a then b else a.

(** [a || b]. *)
Definition or (a b : JsValue) : JsValue := if truthy a then a else b.

Fixpoint lookup (k : js_string) (props : list (js_string * JsValue)) : option JsValue :=
  match props with
  | [] => None
  | (k', v) :: rest => if js_string_eqb k k' then Some v else lookup k rest
  end.

(** Property read [o.k] of an own data property; primitives, arrays and
    objects lacking [k] give undefined.  Not defined by the language on
    undefined and null (a TypeError there): callers guard with [opt_get]
    or read only from objects. *)
Definition get (o : JsValue) (k : js_string) : JsValue :=
  match o with
  | VObject props =>
      match lookup k props with
      | Some v => v
      | None => VUndefined
      end
  | _ => VUndefined
  end.

(** Optional chaining [o?.k]. *)
Definition opt_get (o : JsValue) (k : js_string) : JsValue :=
  if nullish o then VUndefined else get o k.

(** *** String.prototype.trim *)

(** WhiteSpace and LineTerminator code units. *)
Definition is_white_space (c : code_unit) : bool :=
  ((9 <=? c) && (c <=? 13) || (c =? 32) || (c =? 160) || (c =? 5760)
   || (8192 <=? c) && (c <=? 8202) || (c =? 8232) || (c =? 8233)
   || (c =? 8239) || (c =? 8287) || (c =? 12288) || (c =? 65279))%N.

Fixpoint trim_start (s : js_string) : js_string :=
  match s with
  | c :: s' => if is_white_space c then trim_start s' else s
  | [] => []
  end.

Definition trim_end (s : js_string) : js_string := rev (trim_start (rev s)).

Definition trim (s : js_string) : js_string := trim_end (trim_start s).

(** *** Number(string): StringToNumber *)

Definition digit_value (radix : N) (c : code_unit) : option Z :=
  let d :=
    if ((48 <=? c) && (c <=? 57))%N then Some (c - 48)%N
    else if ((97 <=? c) && (c <=? 102))%N then Some (c - 87)%N
    else if ((65 <=? c) && (c <=? 70))%N then Some (c - 55)%N
    else None in
  match d with
  | Some n => if (n <? radix)%N then Some (Z.of_N n) else None
  | None => None
  end.

(** Longest prefix of digits in [radix]: accumulated value, digit count,
    rest of the input. *)
Fixpoint take_digits (radix : N) (acc : Z) (count : Z) (s : js_string)
  : Z * Z * js_string :=
  match s with
  | c :: s' =>
      match digit_value radix c with
      | Some d => take_digits radix (acc * Z.of_N radix + d) (count + 1) s'
      | None => (acc, count, s)
      end
  | [] => (acc, count, [])
  end.

(** NonDecimalIntegerLiteral body: one or more digits and nothing else. *)
Definition parse_radix (radix : N) (s : js_string) : number :=
  match take_digits radix 0 0 s with
  | (v, count, []) => if 0 <? count then number_of_Z v else NaN
  | _ => NaN
  end.

(** ExponentPart, when present; [None] when the text is malformed. *)
Definition parse_exponent (s : js_string) : option Z :=
  match s with
  | [] => Some 0
  | c :: s' =>
      if ((c =? 101) || (c =? 69))%N then
        let '(neg, body) :=
          match s' with
          | 43%N :: b => (false, b)
          | 45%N :: b => (true, b)
          | _ => (false, s')
          end in
        match take_digits 10 0 0 body with
        | (v, count, []) =>
            if 0 <? count then Some (if neg then - v else v) else None
        | _ => None
        end
      else None
  end.

(** StrUnsignedDecimalLiteral. *)
Definition parse_unsigned_decimal (neg : bool) (s : js_string) : number :=
  if js_string_eqb s (lit "Infinity") then S754_infinity neg
  else
    let '(ip, icount, r1) := take_digits 10 0 0 s in
    let '(m, fcount, r2) :=
      match r1 with
      | 46%N :: r => take_digits 10 ip 0 r
      | _ => (ip, 0, r1)
      end in
    if 0 <? icount + fcount then
      match parse_exponent r2 with
      | Some e => number_of_decimal neg m (e - fcount)
      | None => NaN
      end
    else NaN.

Definition StringToNumber (s : js_string) : number :=
  match trim s with
  | [] => pos_zero
  | 48%N :: p :: r =>
      if ((p =? 120) || (p =? 88))%N then parse_radix 16 r
      else if ((p =? 111) || (p =? 79))%N then parse_radix 8 r
      else if ((p =? 98) || (p =? 66))%N then parse_radix 2 r
      else parse_unsigned_decimal false (48%N :: p :: r)
  | 43%N :: r => parse_unsigned_decimal false r
  | 45%N :: r => parse_unsigned_decimal true r
  | t => parse_unsigned_decimal false t
  end.

(** [Number(v)] called on a string. *)
Definition Number (s : js_string) : number := StringToNumber s.

End Js.

(** ** The coercion helpers (services.tsx, lines 46-59) *)

(** A parameter with a default value: [None] is the argument left out (or
    passed as undefined), which selects the default. *)
Definition default_arg {A : Type} (dflt : A) (arg : option A) : A :=
  match arg with
  | Some a => a
  | None => dflt
  end.

Definition toNumber (v : JsValue) (fallback : option number) : number :=
  let fallback := default_arg pos_zero fallback in
  match v with
  | VNumber n => n
  | VString s =>
      let n := Js.Number (Js.trim s) in
      if Js.isFinite n then n else fallback
  | _ => fallback
  end.

Definition toBool (v : JsValue) (fallback : option bool) : bool :=
  let fallback := default_arg false fallback in
  match v with
  | VBool b => b
  | VString s => js_string_eqb s (lit "true")
  | _ => fallback
  end.

(** ** Schema validation: the part of zod 3 the page uses *)

Module Zod.

Inductive PathElem :=
| Key (k : js_string)
| Index (i : nat).

Inductive IssueCode := invalid_type | too_small | invalid_union.

Record ZodIssue := {
  code : IssueCode;
  path : list PathElem;
  message : js_string;
}.

(** The result of parsing in a context: the issues added to the context
    and the parsed value, [None] when parsing aborted.  A parse is valid
    when it added no issue. *)
Record ParseReturn := {
  issues : list ZodIssue;
  value : option JsValue;
}.

Definition OK (v : JsValue) : ParseReturn := {| issues := []; value := Some v |}.
Definition INVALID (i : list ZodIssue) : ParseReturn := {| issues := i; value := None |}.

Definition ZodType := list PathElem -> JsValue -> ParseReturn.

Inductive ZodParsedType :=
| PTstring | PTnan | PTnumber | PTboolean | PTundefined | PTnull | PTarray | PTobject.

Definition getParsedType (data : JsValue) : ZodParsedType :=
  match data with
  | VUndefined => PTundefined
  | VNull => PTnull
  | VBool _ => PTboolean
  | VNumber n => if Js.isNaN n then PTnan else PTnumber
  | VString _ => PTstring
  | VArray _ => PTarray
  | VObject _ => PTobject
  end.

Definition type_name (t : ZodParsedType) : js_string :=
  match t with
  | PTstring => lit "string"
  | PTnan => lit "nan"
  | PTnumber => lit "number"
  | PTboolean => lit "boolean"
  | PTundefined => lit "undefined"
  | PTnull => lit "null"
  | PTarray => lit "array"
  | PTobject => lit "object"
  end.

(** The default error map's message for a value of the wrong type. *)
Definition invalid_type_issue (p : list PathElem) (expected received : ZodParsedType)
  : ZodIssue :=
  {| code := invalid_type;
     path := p;
     message :=
       match received with
       | PTundefined => lit "Required"
       | _ => lit "Expected " ++ type_name expected ++ lit ", received "
                ++ type_name received
       end |}.

Definition expect (t : ZodParsedType) : ZodType := fun p data =>
  match getParsedType data, t with
  | PTstring, PTstring | PTnumber, PTnumber | PTboolean, PTboolean => OK data
  | received, _ => INVALID [invalid_type_issue p t received]
  end.

(** [z.string()], [z.number()], [z.boolean()]. *)
Definition z_string : ZodType := expect PTstring.
Definition z_number : ZodType := expect PTnumber.
Definition z_boolean : ZodType := expect PTboolean.

(** [z.string().min(n, msg)]: a string shorter than [n] code units adds a
    [too_small] issue carrying [msg]; parsing goes on with the value. *)
Definition z_string_min (n : nat) (msg : js_string) : ZodType := fun p data =>
  match data with
  | VString s =>
      if (List.length s <? n)%nat
      then {| issues := [{| code := too_small; path := p; message := msg |}];
              value := Some data |}
      else OK data
  | _ => z_string p data
  end.

(** [schema.optional()]. *)
Definition optional (schema : ZodType) : ZodType := fun p data =>
  match data with
  | VUndefined => OK VUndefined
  | _ => schema p data
  end.

(** [schema.default(d)]. *)
Definition default (d : JsValue) (schema : ZodType) : ZodType := fun p data =>
  match data with
  | VUndefined => schema p d
  | _ => schema p data
  end.

Definition is_valid (r : ParseReturn) : bool :=
  match issues r, value r with
  | [], Some _ => true
  | _, _ => false
  end.

(** [z.union(options)]: the first option that parses without issue wins;
    failing that, the first that parsed with issues but did not abort;
    failing that, one [invalid_union] issue. *)
Definition union (options : list ZodType) : ZodType := fun p data =>
  let results := List.map (fun o => o p data) options in
  match List.find is_valid results with
  | Some r => r
  | None =>
      match List.find (fun r => match value r with Some _ => true | None => false end) results with
      | Some r => r
      | None =>
          INVALID [{| code := invalid_union; path := p; message := lit "Invalid input" |}]
      end
  end.

Fixpoint array_items (element : ZodType) (p : list PathElem) (i : nat)
  (items : list JsValue) : list ZodIssue * option (list JsValue) :=
  match items with
  | [] => ([], Some [])
  | x :: rest =>
      let r := element (p ++ [Index i]) x in
      let '(rest_issues, out) := array_items element p (S i) rest in
      (issues r ++ rest_issues,
       match value r, out with
       | Some v, Some o => Some (v :: o)
       | _, _ => None
       end)
  end.

(** [z.array(element)]. *)
Definition array (element : ZodType) : ZodType := fun p data =>
  match data with
  | VArray items =>
      let '(rest_issues, out) := array_items element p 0 items in
      {| issues := rest_issues; value := option_map VArray out |}
  | _ => INVALID [invalid_type_issue p PTarray (getParsedType data)]
  end.

Definition has_key (k : js_string) (props : list (js_string * JsValue)) : bool :=
  match Js.lookup k props with Some _ => true | None => false end.

Definition is_defined (v : JsValue) : bool :=
  match v with
  | VUndefined => false
  | _ => true
  end.

(** The parse of one field of an object schema. *)
Definition field_result (p : list PathElem) (props : list (js_string * JsValue))
  (k : js_string) (schema : ZodType) : ParseReturn :=
  schema (p ++ [Key k]) (Js.get (VObject props) k).

(** The fields of an object schema, in the order of the shape.  Every
    field is parsed (issues accumulate over all of them); a parsed value
    is written to the output when it is defined or its key is present in
    the input; keys outside the shape are dropped. *)
Fixpoint object_fields (shape : list (js_string * ZodType)) (p : list PathElem)
  (props : list (js_string * JsValue))
  : list ZodIssue * option (list (js_string * JsValue)) :=
  match shape with
  | [] => ([], Some [])
  | (k, schema) :: rest =>
      let r := field_result p props k schema in
      let '(rest_issues, out) := object_fields rest p props in
      (issues r ++ rest_issues,
       match value r, out with
       | Some v, Some o =>
           Some (if is_defined v || has_key k props then (k, v) :: o else o)
       | _, _ => None
       end)
  end.

(** [z.object(shape)]. *)
Definition object (shape : list (js_string * ZodType)) : ZodType := fun p data =>
  match data with
  | VObject props =>
      let '(rest_issues, out) := object_fields shape p props in
      {| issues := rest_issues; value := option_map VObject out |}
  | _ => INVALID [invalid_type_issue p PTobject (getParsedType data)]
  end.

Inductive SafeParseReturn :=
| Success (data : JsValue)
| Failure (error : list ZodIssue).

(** [schema.safeParse(data)]: success exactly when no issue was raised. *)
Definition safeParse (schema : ZodType) (data : JsValue) : SafeParseReturn :=
  let r := schema [] data in
  match issues r, value r with
  | [], Some v => Success v
  | found, _ => Failure found
  end.

End Zod.

(** ** The form schema (services.tsx, lines 32-41) *)

Definition serviceShape : list (js_string * Zod.ZodType) :=
    [ (lit "name", Zod.z_string_min 1 (lit "Nom requis"));
      (lit "description", Zod.default (VString (lit "")) (Zod.optional Zod.z_string));
      (lit "price", Zod.union [Zod.z_number; Zod.z_string]);
      (lit "duration", Zod.union [Zod.z_number; Zod.z_string]);
      (lit "breakBefore", Zod.optional (Zod.union [Zod.z_number; Zod.z_string]));
      (lit "breakAfter", Zod.optional (Zod.union [Zod.z_number; Zod.z_string]));
      (lit "tags", Zod.optional (Zod.array Zod.z_string));
      (lit "depositRequired", Zod.optional (Zod.union [Zod.z_boolean; Zod.z_string])) ].

Definition serviceSchema : Zod.ZodType := Zod.object serviceShape.

(** ** The payload assembled by [onSubmit] (services.tsx, lines 166-176)

    [data] is the value the resolver hands to [onSubmit], an object. *)
Definition cleaned (salon data : JsValue) : JsValue :=
  VObject
    [ (lit "salonId", Js.coalesce (Js.opt_get salon (lit "id")) VUndefined);
      (lit "name", Js.get data (lit "name"));
      (lit "description", Js.coalesce (Js.get data (lit "description")) (VString (lit "")));
      (lit "price", VNumber (toNumber (Js.get data (lit "price")) None));
      (lit "duration", VNumber (toNumber (Js.get data (lit "duration")) None));
      (lit "breakBefore", VNumber (toNumber (Js.get data (lit "breakBefore")) (Some pos_zero)));
      (lit "breakAfter", VNumber (toNumber (Js.get data (lit "breakAfter")) (Some pos_zero)));
      (lit "tags",
        if Js.isArray (Js.get data (lit "tags")) then Js.get data (lit "tags") else VArray []);
      (lit "depositRequired", VBool (toBool (Js.get data (lit "depositRequired")) (Some false))) ].

(** ** Responses, toasts and the effects of the page *)

Inductive Outcome (A : Type) : Type :=
| Fulfilled (a : A)
| Rejected (reason : JsValue).
Arguments Fulfilled {A} a.
Arguments Rejected {A} reason.

(** A [Response] as the page uses it: the [ok] flag, what awaiting
    [res.json()] gives, and what awaiting [res.text()] gives where the page
    calls it, after [res.json()] rejected. *)
Record Response := {
  ok : bool;
  json : Outcome JsValue;
  text : Outcome js_string;
}.

(** What awaiting [apiRequest(...)] gives. *)
Inductive ApiResult :=
| ApiThrows (reason : JsValue)
| ApiReturns (res : Response).

Record Toast := {
  title : js_string;
  description : JsValue;
  variant : option js_string;
}.

Inductive Effect :=
| ApiRequest (method url : js_string) (data : JsValue)
| ShowToast (t : Toast)
| InvalidateQueries (queryKey : list js_string)
| RedirectAfter (ms : Z) (href : js_string).

(** [new Error(message)]. *)
Definition new_Error (message : js_string) : JsValue :=
  VObject [(lit "message", VString message)].

Definition str (s : string) : JsValue := VString (lit s).
Definition num (z : Z) : JsValue := VNumber (number_of_Z z).

(** [useForm]'s [defaultValues] (services.tsx, lines 77-86). *)
Definition defaultValues : JsValue :=
  VObject
    [ (lit "name", str "");
      (lit "description", str "");
      (lit "price", num 0);
      (lit "duration", num 30);
      (lit "breakBefore", num 0);
      (lit "breakAfter", num 0);
      (lit "tags", VArray []);
      (lit "depositRequired", VBool false) ].

(** The values the "Modifier" button loads into the form
    (services.tsx, lines 372-381). *)
Definition editValues (s : JsValue) : JsValue :=
  VObject
    [ (lit "name", Js.coalesce (Js.get s (lit "name")) (str ""));
      (lit "description", Js.coalesce (Js.get s (lit "description")) (str ""));
      (lit "price", Js.coalesce (Js.get s (lit "price")) (num 0));
      (lit "duration", Js.coalesce (Js.get s (lit "duration")) (num 30));
      (lit "breakBefore", Js.coalesce (Js.get s (lit "breakBefore")) (num 0));
      (lit "breakAfter", Js.coalesce (Js.get s (lit "breakAfter")) (num 0));
      (lit "tags",
        if Js.isArray (Js.get s (lit "tags")) then Js.get s (lit "tags") else VArray []);
      (lit "depositRequired", VBool (Js.truthy (Js.get s (lit "depositRequired")))) ].

(** ** The page component *)

Record PageState := {
  isDialogOpen : bool;
  editing : JsValue;
  (** data of the queries ["/api/salon"] and ["/api/services"] *)
  salon : JsValue;
  services : JsValue;
  (** react-hook-form: current values, values [reset()] goes back to, and
      the issues of the last validation *)
  formValues : JsValue;
  formDefaults : JsValue;
  formErrors : list Zod.ZodIssue;
  (** [isPending] of the two mutations *)
  createPending : bool;
  updatePending : bool;
}.

Definition initialState : PageState :=
  {| isDialogOpen := false; editing := VNull;
     salon := VUndefined; services := VUndefined;
     formValues := defaultValues; formDefaults := defaultValues; formErrors := [];
     createPending := false; updatePending := false |}.

Definition setIsDialogOpen (b : bool) (st : PageState) : PageState :=
  {| isDialogOpen := b; editing := editing st;
     salon := salon st; services := services st;
     formValues := formValues st; formDefaults := formDefaults st;
     formErrors := formErrors st;
     createPending := createPending st; updatePending := updatePending st |}.

Definition setEditing (e : JsValue) (st : PageState) : PageState :=
  {| isDialogOpen := isDialogOpen st; editing := e;
     salon := salon st; services := services st;
     formValues := formValues st; formDefaults := formDefaults st;
     formErrors := formErrors st;
     createPending := createPending st; updatePending := updatePending st |}.

(** [form.reset(values)]: [None] is the call without argument, which goes
    back to the current default values; a given object also becomes the
    default. *)
Definition form_reset (values : option JsValue) (st : PageState) : PageState :=
  let v := default_arg (formDefaults st) values in
  {| isDialogOpen := isDialogOpen st; editing := editing st;
     salon := salon st; services := services st;
     formValues := v; formDefaults := v; formErrors := [];
     createPending := createPending st; updatePending := updatePending st |}.

Definition form_setValues (v : JsValue) (errors : list Zod.ZodIssue) (st : PageState)
  : PageState :=
  {| isDialogOpen := isDialogOpen st; editing := editing st;
     salon := salon st; services := services st;
     formValues := v; formDefaults := formDefaults st; formErrors := errors;
     createPending := createPending st; updatePending := updatePending st |}.

Definition setPending (create update : bool) (st : PageState) : PageState :=
  {| isDialogOpen := isDialogOpen st; editing := editing st;
     salon := salon st; services := services st;
     formValues := formValues st; formDefaults := formDefaults st;
     formErrors := formErrors st;
     createPending := create; updatePending := update |}.

Definition receiveQueryData (queryKey : list js_string) (data : JsValue) (st : PageState)
  : PageState :=
  match queryKey with
  | [k] =>
      {| isDialogOpen := isDialogOpen st; editing := editing st;
         salon := if js_string_eqb k (lit "/api/salon") then data else salon st;
         services := if js_string_eqb k (lit "/api/services") then data else services st;
         formValues := formValues st; formDefaults := formDefaults st;
         formErrors := formErrors st;
         createPending := createPending st; updatePending := updatePending st |}
  | _ => st
  end.

(** The submit button of the dialog (services.tsx, lines 329-340). *)
Record ButtonProps := {
  disabled : bool;
  label : js_string;
}.

Definition submitButton (st : PageState) : ButtonProps :=
  {| disabled := createPending st || updatePending st;
     label := if createPending st || updatePending st
              then lit "Enregistrement..." else lit "Enregistrer" |}.

Inductive Event :=
| ClickAjouter
| ClickModifier (s : JsValue)
| ClickAnnuler
| DialogOpenChange (open : bool)
| FieldChange (name : js_string) (v : JsValue)
| SubmitForm
| CreateSettled (answer : ApiResult)
| UpdateSettled (answer : ApiResult)
| QueryUpdated (queryKey : list js_string) (data : JsValue).

Fixpoint set_prop (k : js_string) (v : JsValue) (props : list (js_string * JsValue))
  : list (js_string * JsValue) :=
  match props with
  | [] => [(k, v)]
  | (k', v') :: rest =>
      if js_string_eqb k k' then (k, v) :: rest else (k', v') :: set_prop k v rest
  end.

Definition set_field (o : JsValue) (k : js_string) (v : JsValue) : JsValue :=
  match o with
  | VObject props => VObject (set_prop k v props)
  | _ => VObject [(k, v)]
  end.

(** Built-ins and helpers the page calls and that live outside it:
    [JSON.stringify], the string conversion of a template literal, and
    [isUnauthorizedError] of [@/lib/authUtils]. *)
Class Platform := {
  JSON_stringify : JsValue -> js_string;
  ToString : JsValue -> js_string;
  isUnauthorizedError : JsValue -> bool;
}.

Section Page.

Context {platform : Platform}.

(** The message [onApiError] derives from a response (lines 90-98). *)
Definition apiErrorMessage (res : Response) : JsValue :=
  match json res with
  | Fulfilled data =>
      Js.or (Js.opt_get data (lit "message")) (VString (JSON_stringify data))
  | Rejected _ =>
      match text res with
      | Fulfilled t => VString t
      | Rejected _ => str "Erreur inconnue"
      end
  end.

(** [onApiError] (lines 89-104): the toast it shows. *)
Definition onApiError (res : Response) : Toast :=
  let msg := apiErrorMessage res in
  {| title := lit "Erreur";
     description := Js.or msg (str "Impossible de créer le service.");
     variant := Some (lit "destructive") |}.

(** [createServiceMutation] (lines 106-131).  The mutation function is
    split at its [await apiRequest(...)]: the request it sends, and what
    it does with the answer. *)
Definition createServiceMutation_request (payload : JsValue) : Effect :=
  ApiRequest (lit "POST") (lit "/api/services") payload.

Definition createServiceMutation_resume (answer : ApiResult)
  : list Effect * Outcome JsValue :=
  match answer with
  | ApiThrows reason => ([], Rejected reason)
  | ApiReturns res =>
      if negb (ok res)
      then ([ShowToast (onApiError res)], Rejected (new_Error (lit "create failed")))
      else ([], json res)
  end.

Definition createServiceMutation_mutationFn (payload : JsValue) (answer : ApiResult)
  : list Effect * Outcome JsValue :=
  let '(effects, outcome) := createServiceMutation_resume answer in
  (createServiceMutation_request payload :: effects, outcome).

Definition unauthorized_effects : list Effect :=
  [ ShowToast {| title := lit "Non autorisé";
                 description := str "Vous devez être connecté. Redirection...";
                 variant := Some (lit "destructive") |};
    RedirectAfter 500 (lit "/api/login") ].

Definition createServiceMutation_onSuccess (st : PageState) : PageState * list Effect :=
  (form_reset None (setIsDialogOpen false st),
   [ ShowToast {| title := lit "Service créé";
                  description := str "Le service a été ajouté.";
                  variant := None |};
     InvalidateQueries [lit "/api/services"] ]).

Definition createServiceMutation_onError (error : JsValue) (st : PageState)
  : PageState * list Effect :=
  (st, if isUnauthorizedError error then unauthorized_effects else []).

(** [updateServiceMutation] (lines 133-162). *)
Definition updateServiceMutation_request (variables : JsValue) : Effect :=
  ApiRequest (lit "PUT")
    (lit "/api/services/" ++ ToString (Js.get variables (lit "id")))
    (Js.get variables (lit "data")).

Definition updateServiceMutation_resume (answer : ApiResult)
  : list Effect * Outcome JsValue :=
  match answer with
  | ApiThrows reason => ([], Rejected reason)
  | ApiReturns res =>
      if negb (ok res)
      then ([ShowToast (onApiError res)], Rejected (new_Error (lit "update failed")))
      else ([], json res)
  end.

Definition updateServiceMutation_mutationFn (variables : JsValue) (answer : ApiResult)
  : list Effect * Outcome JsValue :=
  let '(effects, outcome) := updateServiceMutation_resume answer in
  (updateServiceMutation_request variables :: effects, outcome).

Definition updateServiceMutation_onSuccess (st : PageState) : PageState * list Effect :=
  (form_reset None (setEditing VNull (setIsDialogOpen false st)),
   [ ShowToast {| title := lit "Service modifié";
                  description := str "Le service a été mis à jour.";
                  variant := None |};
     InvalidateQueries [lit "/api/services"] ]).

Definition updateServiceMutation_onError (error : JsValue) (st : PageState)
  : PageState * list Effect :=
  (st, if isUnauthorizedError error then unauthorized_effects else []).

(** [onSubmit] (lines 164-183): [mutate] marks the mutation pending and
    starts its mutation function. *)
Definition onSubmit (data : JsValue) (st : PageState) : PageState * list Effect :=
  let cleaned := cleaned (salon st) data in
  if Js.truthy (editing st) then
    (setPending (createPending st) true st,
     [updateServiceMutation_request
        (VObject [(lit "id", Js.get (editing st) (lit "id")); (lit "data", cleaned)])])
  else
    (setPending true (updatePending st) st,
     [createServiceMutation_request cleaned]).

(** [form.handleSubmit(onSubmit)] with the zod resolver: [onSubmit] runs
    on the parsed value, and only when validation raised no issue. *)
Definition handleSubmit (st : PageState) : PageState * list Effect :=
  match Zod.safeParse serviceSchema (formValues st) with
  | Zod.Success data => onSubmit data (form_setValues (formValues st) [] st)
  | Zod.Failure errors => (form_setValues (formValues st) errors st, [])
  end.

(** One event of the page, reaching the page as rendered from [st] (the
    render is up to date).  A disabled submit button submits nothing; the
    settlement of a mutation runs the rest of its mutation function, then
    [onSuccess] or [onError], and clears [isPending]. *)
Definition dispatch (st : PageState) (ev : Event) : PageState * list Effect :=
  match ev with
  | ClickAjouter =>
      (setIsDialogOpen (negb (isDialogOpen st)) (form_reset None (setEditing VNull st)), [])
  | ClickModifier s =>
      (setIsDialogOpen true (form_reset (Some (editValues s)) (setEditing s st)), [])
  | ClickAnnuler => (setIsDialogOpen false st, [])
  | DialogOpenChange open => (setIsDialogOpen open st, [])
  | FieldChange name v =>
      (form_setValues (set_field (formValues st) name v) (formErrors st) st, [])
  | SubmitForm =>
      if disabled (submitButton st) then (st, []) else handleSubmit st
  | CreateSettled answer =>
      if createPending st then
        let '(effects, outcome) := createServiceMutation_resume answer in
        let st1 := setPending false (updatePending st) st in
        let '(st2, more) :=
          match outcome with
          | Fulfilled _ => createServiceMutation_onSuccess st1
          | Rejected error => createServiceMutation_onError error st1
          end in
        (st2, effects ++ more)
      else (st, [])
  | UpdateSettled answer =>
      if updatePending st then
        let '(effects, outcome) := updateServiceMutation_resume answer in
        let st1 := setPending (createPending st) false st in
        let '(st2, more) :=
          match outcome with
          | Fulfilled _ => updateServiceMutation_onSuccess st1
          | Rejected error => updateServiceMutation_onError error st1
          end in
        (st2, effects ++ more)
      else (st, [])
  | QueryUpdated queryKey data => (receiveQueryData queryKey data st, [])
  end.

(** Running a sequence of events, the page re-rendered between them,
    collecting the effects in order. *)
Fixpoint run (st : PageState) (evs : list Event) : PageState * list Effect :=
  match evs with
  | [] => (st, [])
  | ev :: rest =>
      let '(st1, e1) := dispatch st ev in
      let '(st2, e2) := run st1 rest in
      (st2, e1 ++ e2)
  end.

(** *** Vocabulary of the statements about the page *)

Definition is_request (e : Effect) : bool :=
  match e with
  | ApiRequest _ _ _ => true
  | _ => false
  end.

(** Number of requests among the effects. *)
Definition requests (es : list Effect) : nat := List.length (List.filter is_request es).

(** *** The page and what is on the screen

    The [disabled] of the submit button is a prop computed when the
    component renders.  Between a change of state and the next render the
    screen still shows the button of the previous render, and it is that
    button which lets a submission through or not: [onSubmit] itself calls
    [mutate] whatever [isPending]. *)
Record Screen := {
  page : PageState;
  shown : ButtonProps;
}.

Inductive ScreenEvent :=
| Render
| Deliver (ev : Event).

Definition render (sc : Screen) : Screen :=
  {| page := page sc; shown := submitButton (page sc) |}.

Definition screen_step (sc : Screen) (e : ScreenEvent) : Screen * list Effect :=
  match e with
  | Render => (render sc, [])
  | Deliver SubmitForm =>
      if disabled (shown sc) then (sc, [])
      else
        let '(st, effects) := handleSubmit (page sc) in
        ({| page := st; shown := shown sc |}, effects)
  | Deliver ev =>
      let '(st, effects) := dispatch (page sc) ev in
      ({| page := st; shown := shown sc |}, effects)
  end.

Fixpoint screen_run (sc : Screen) (es : list ScreenEvent) : Screen * list Effect :=
  match es with
  | [] => (sc, [])
  | e :: rest =>
      let '(sc1, e1) := screen_step sc e in
      let '(sc2, e2) := screen_run sc1 rest in
      (sc2, e1 ++ e2)
  end.

(** The only things the page asks of the backend and of the query cache:
    POST /api/services, PUT /api/services/<id>, and the invalidation of
    the query ["/api/services"]. *)
Definition targets_services (e : Effect) : Prop :=
  match e with
  | ApiRequest method url _ =>
      url <> lit "/api/salon"
      /\ ((method = lit "POST" /\ url = lit "/api/services")
          \/ (method = lit "PUT" /\ exists id, url = lit "/api/services/" ++ ToString id))
  | InvalidateQueries queryKey => queryKey = [lit "/api/services"]
  | ShowToast _ | RedirectAfter _ _ => True
  end.

End Page.

(** The page state with another salon in the query cache. *)
Definition withSalon (s : JsValue) (st : PageState) : PageState :=
  {| isDialogOpen := isDialogOpen st; editing := editing st;
     salon := s; services := services st;
     formValues := formValues st; formDefaults := formDefaults st;
     formErrors := formErrors st;
     createPending := createPending st; updatePending := updatePending st |}.

(** The issue raised for an empty name. *)
Definition nom_requis : Zod.ZodIssue :=
  {| Zod.code := Zod.too_small;
     Zod.path := [Zod.Key (lit "name")];
     Zod.message := lit "Nom requis" |}.

(** ** Vocabulary and sample values of the statements *)

(** A number that is NaN or an infinity. *)
Definition non_finite_number (v : JsValue) : bool :=
  match v with
  | VNumber n => negb (Js.isFinite n)
  | _ => false
  end.

Definition numeric_fields : list js_string :=
  [lit "price"; lit "duration"; lit "breakBefore"; lit "breakAfter"].

Definition is_string (v : JsValue) : bool :=
  match v with VString _ => true | _ => false end.

Definition nonempty_string (v : JsValue) : bool :=
  match v with VString (_ :: _) => true | _ => false end.

(** What [z.union([z.number(), z.string()])] lets through: a string, or a
    number other than NaN. *)
Definition number_or_string (v : JsValue) : bool :=
  match v with
  | VNumber n => negb (Js.isNaN n)
  | VString _ => true
  | _ => false
  end.

Definition boolean_or_string (v : JsValue) : bool :=
  match v with VBool _ | VString _ => true | _ => false end.

Definition string_array (v : JsValue) : bool :=
  match v with VArray items => forallb is_string items | _ => false end.

Definition absent_or (P : JsValue -> bool) (v : JsValue) : bool :=
  match v with VUndefined => true | _ => P v end.

(** [schema] accepts exactly the values satisfying [P], and parses [d]
    to [out d]. *)
Definition field_spec (schema : Zod.ZodType) (P : JsValue -> bool)
  (out : JsValue -> JsValue) : Prop :=
  forall p d v, schema p d = Zod.OK v <-> (P d = true /\ v = out d).

Definition same (d : JsValue) : JsValue := d.

(** The inputs [serviceSchema] accepts. *)
Definition well_formed (input : JsValue) : bool :=
  match input with
  | VObject _ =>
      nonempty_string (Js.get input (lit "name"))
      && absent_or is_string (Js.get input (lit "description"))
      && number_or_string (Js.get input (lit "price"))
      && number_or_string (Js.get input (lit "duration"))
      && absent_or number_or_string (Js.get input (lit "breakBefore"))
      && absent_or number_or_string (Js.get input (lit "breakAfter"))
      && absent_or string_array (Js.get input (lit "tags"))
      && absent_or boolean_or_string (Js.get input (lit "depositRequired"))
  | _ => false
  end.

Definition accepted (input : JsValue) : Prop :=
  exists data, Zod.safeParse serviceSchema input = Zod.Success data.

(** A filled-in form, a loaded salon, and a salon whose id is null. *)
Definition form_coupe : JsValue :=
  VObject
    [ (lit "name", str "Coupe + Brushing");
      (lit "description", str "");
      (lit "price", str " 45.50 ");
      (lit "duration", num 30);
      (lit "breakBefore", str "5");
      (lit "breakAfter", num 0);
      (lit "tags", VArray [str "coupe"]);
      (lit "depositRequired", str "true") ].

Definition salon_1 : JsValue := VObject [(lit "id", str "salon-1")].

Definition salon_null_id : JsValue := VObject [(lit "id", VNull)].

Definition omits_optional (input : JsValue) : Prop :=
  Js.get input (lit "description") = VUndefined
  /\ Js.get input (lit "breakBefore") = VUndefined
  /\ Js.get input (lit "breakAfter") = VUndefined
  /\ Js.get input (lit "tags") = VUndefined
  /\ Js.get input (lit "depositRequired") = VUndefined.

(** The required fields are acceptable: a non-empty name, and a price and
    a duration that are each a string or a number other than NaN. *)
Definition required_ok (input : JsValue) : bool :=
  nonempty_string (Js.get input (lit "name"))
  && number_or_string (Js.get input (lit "price"))
  && number_or_string (Js.get input (lit "duration")).

Definition form_required_only : JsValue :=
  VObject [ (lit "name", str "Barbe"); (lit "price", num 15); (lit "duration", str "20") ].

(** The condition under which C4 as stated promises acceptance. *)
Definition typed_required_fields (input : JsValue) : Prop :=
  nonempty_string (Js.get input (lit "name")) = true
  /\ (Js.typeof (Js.get input (lit "price")) = Js.TNumber
      \/ Js.typeof (Js.get input (lit "price")) = Js.TString)
  /\ (Js.typeof (Js.get input (lit "duration")) = Js.TNumber
      \/ Js.typeof (Js.get input (lit "duration")) = Js.TString).

Definition form_bad_tags : JsValue :=
  VObject [ (lit "name", str "Coupe"); (lit "price", num 10); (lit "duration", num 30);
            (lit "tags", str "coupe") ].

Definition form_nan_price : JsValue :=
  VObject [ (lit "name", str "Coupe"); (lit "price", VNumber NaN); (lit "duration", num 30) ].

Definition form_empty_name : JsValue :=
  VObject [ (lit "name", str ""); (lit "price", num 10); (lit "duration", num 30) ].

(** A platform to evaluate the page on examples.  It is exact on the
    values the examples use (identifiers that are strings, nullish values
    or booleans; bodies that are null, a boolean or an empty object or
    array; errors told apart by a message starting with 401) and a
    stand-in elsewhere. *)
Definition examplePlatform : Platform :=
  {| JSON_stringify := fun v =>
       match v with
       | VNull => lit "null"
       | VBool true => lit "true"
       | VBool false => lit "false"
       | VArray [] => lit "[]"
       | _ => lit "{}"
       end;
     ToString := fun v =>
       match v with
       | VString s => s
       | VUndefined => lit "undefined"
       | VNull => lit "null"
       | VBool true => lit "true"
       | VBool false => lit "false"
       | _ => lit "[object Object]"
       end;
     isUnauthorizedError := fun error =>
       match Js.get error (lit "message") with
       | VString (52%N :: 48%N :: 49%N :: _) => true
       | _ => false
       end |}.

Definition withForm (v : JsValue) (st : PageState) : PageState :=
  form_setValues v [] st.

(** The page with the salon loaded and the dialog form filled in. *)
Definition state_filled : PageState := withForm form_coupe (withSalon salon_1 initialState).

Definition state_empty_name : PageState :=
  withForm form_empty_name (withSalon salon_1 initialState).

(** A refused request whose body carries a message, and an accepted one. *)
Definition response_refused : Response :=
  {| ok := false;
     json := Fulfilled (VObject [(lit "message", str "Nom déjà utilisé")]);
     text := Rejected (new_Error (lit "body used")) |}.

Definition response_created : Response :=
  {| ok := true;
     json := Fulfilled (VObject [(lit "id", str "svc-1")]);
     text := Rejected (new_Error (lit "body used")) |}.

(** ** Vocabulary and sample values of the further properties *)

(** A string made of WhiteSpace and LineTerminator code units only. *)
Definition all_white_space (s : js_string) : bool := forallb Js.is_white_space s.

Definition comma : code_unit := 44%N.

(** A schema whose parse aborts only after raising an issue. *)
Definition aborts_with_issue (schema : Zod.ZodType) : Prop :=
  forall p d, Zod.issues (schema p d) = [] -> Zod.value (schema p d) <> None.

(** The title of the dialog (services.tsx, line 208). *)
Definition dialogTitle (st : PageState) : js_string :=
  if Js.truthy (editing st) then lit "Modifier un service" else lit "Ajouter un service".

(** The user typing into fields of the form, one change after the other. *)
Definition fieldChanges (changes : list (js_string * JsValue)) : list Event :=
  List.map (fun c => FieldChange (fst c) (snd c)) changes.

(** A service as the backend may return it: the price a decimal string, the
    deposit flag the string "false", no description, breaks or tags. *)
Definition service_stored : JsValue :=
  VObject
    [ (lit "id", str "svc-1");
      (lit "name", str "Coupe");
      (lit "price", str "45.50");
      (lit "duration", num 30);
      (lit "depositRequired", str "false") ].

Definition form_comma_price : JsValue :=
  VObject [ (lit "name", str "Coupe"); (lit "price", str "12,50"); (lit "duration", num 30) ].

(** The page with the salon loaded and nothing else done. *)
Definition state_loaded : PageState := withSalon salon_1 initialState.



(** A response with [ok] true whose body is no JSON, and a refused one
    whose body is no JSON either: [res.json()] rejects, and so does
    [res.text()] after it, the body being read already. *)
Definition response_ok_unparsable : Response :=
  {| ok := true;
     json := Rejected (new_Error (lit "Unexpected token < in JSON"));
     text := Rejected (new_Error (lit "body used")) |}.

Definition response_refused_unparsable : Response :=
  {| ok := false;
     json := Rejected (new_Error (lit "Unexpected token < in JSON"));
     text := Rejected (new_Error (lit "body used")) |}.

(** The filled-in form on the screen, the submit button enabled. *)
Definition screen_filled : Screen :=
  {| page := state_filled; shown := submitButton state_filled |}.

(** * Properties *)

(** ** Strings and property lookup *)

Lemma js_string_eqb_eq (a b : js_string) : js_string_eqb a b = true <-> a = b.
Proof.
  revert b; induction a as [|x a IH]; intros [|y b]; simpl; split;
    try congruence; try reflexivity.
  - intros H. apply andb_true_iff in H as [Hxy Hab].
    apply N.eqb_eq in Hxy. apply IH in Hab. congruence.
  - intros H. injection H as -> ->. apply andb_true_iff. split.
    + apply N.eqb_refl.
    + now apply IH.
Qed.

Lemma js_string_eqb_refl (a : js_string) : js_string_eqb a a = true.
Proof. now apply js_string_eqb_eq. Qed.

Lemma js_string_eqb_neq (a b : js_string) : a <> b -> js_string_eqb a b = false.
Proof.
  intros H. destruct (js_string_eqb a b) eqn:E; [|reflexivity].
  apply js_string_eqb_eq in E. contradiction.
Qed.

(** ** The coercion helpers *)

(** C2. [toNumber] on a string [s] gives [Number(s.trim())] when that is
    finite and the fallback otherwise, so [toNumber("")] is 0 because
    [Number("")] is 0; on a number it gives that number; on a value that is
    neither a string nor a number it gives the fallback; and the fallback
    left out is 0. *)
Theorem toNumber_spec :
  (forall (s : js_string) (f : number),
      toNumber (VString s) (Some f) =
        if Js.isFinite (Js.Number (Js.trim s)) then Js.Number (Js.trim s) else f)
  /\ Js.Number (lit "") = pos_zero
  /\ toNumber (str "") None = pos_zero
  /\ (forall (n f : number), toNumber (VNumber n) (Some f) = n)
  /\ (forall (v : JsValue) (f : number),
         Js.typeof v <> Js.TString -> Js.typeof v <> Js.TNumber ->
         toNumber v (Some f) = f)
  /\ (forall v : JsValue, toNumber v None = toNumber v (Some pos_zero)).
Proof.
  repeat split; try reflexivity.
  intros v f Hs Hn. destruct v; simpl in *; congruence.
Qed.

(** C3. [toBool] on a boolean gives that boolean; on a string it gives true
    exactly for the string "true", compared as is, whatever the fallback;
    on any other value it gives the fallback; and the fallback left out is
    false. *)
Theorem toBool_spec :
  (forall (b f : bool), toBool (VBool b) (Some f) = b)
  /\ (forall (s : js_string) (f : bool),
         toBool (VString s) (Some f) = true <-> s = lit "true")
  /\ (forall (s : js_string), s <> lit "true" -> toBool (VString s) (Some true) = false)
  /\ toBool (str "TRUE") (Some true) = false
  /\ toBool (str " true ") (Some true) = false
  /\ (forall (v : JsValue) (f : bool),
         Js.typeof v <> Js.TBoolean -> Js.typeof v <> Js.TString ->
         toBool v (Some f) = f)
  /\ (forall v : JsValue, toBool v None = toBool v (Some false)).
Proof.
  repeat split; try reflexivity.
  - intros H. now apply js_string_eqb_eq.
  - intros ->. apply js_string_eqb_refl.
  - intros s H. now apply js_string_eqb_neq.
  - intros v f Hb Hs. destruct v; simpl in *; congruence.
Qed.

Lemma get_cleaned_name (salon data : JsValue) :
  Js.get (cleaned salon data) (lit "name") = Js.get data (lit "name").
Proof. reflexivity. Qed.

Lemma get_cleaned_description (salon data : JsValue) :
  Js.get (cleaned salon data) (lit "description")
  = Js.coalesce (Js.get data (lit "description")) (str "").
Proof. reflexivity. Qed.

Lemma get_cleaned_tags (salon data : JsValue) :
  Js.get (cleaned salon data) (lit "tags")
  = if Js.isArray (Js.get data (lit "tags")) then Js.get data (lit "tags") else VArray [].
Proof. reflexivity. Qed.

(** C9. The helpers are idempotent: coercing the result of a coercion, with
    the same fallback (given or left out), changes nothing; they are the
    identity on numbers and on booleans; and the payload assembled from an
    assembled payload is that payload. *)
Theorem coercions_idempotent (v : JsValue) (f : option number) (g : option bool)
  (salon data : JsValue) :
  toNumber (VNumber (toNumber v f)) f = toNumber v f
  /\ toBool (VBool (toBool v g)) g = toBool v g
  /\ (forall n : number, toNumber (VNumber n) f = n)
  /\ (forall b : bool, toBool (VBool b) g = b)
  /\ cleaned salon (cleaned salon data) = cleaned salon data.
Proof.
  repeat split.
  unfold cleaned at 1.
  rewrite get_cleaned_name, get_cleaned_description, get_cleaned_tags.
  change (Js.get (cleaned salon data) (lit "price"))
    with (VNumber (toNumber (Js.get data (lit "price")) None)).
  change (Js.get (cleaned salon data) (lit "duration"))
    with (VNumber (toNumber (Js.get data (lit "duration")) None)).
  change (Js.get (cleaned salon data) (lit "breakBefore"))
    with (VNumber (toNumber (Js.get data (lit "breakBefore")) (Some pos_zero))).
  change (Js.get (cleaned salon data) (lit "breakAfter"))
    with (VNumber (toNumber (Js.get data (lit "breakAfter")) (Some pos_zero))).
  change (Js.get (cleaned salon data) (lit "depositRequired"))
    with (VBool (toBool (Js.get data (lit "depositRequired")) (Some false))).
  unfold cleaned.
  destruct (Js.get data (lit "description")), (Js.get data (lit "tags")); reflexivity.
Qed.

(** C10. [toNumber] never introduces a non-finite value: when the input is
    not itself a non-finite number (a string, a finite number, or a value
    that is no number) and the fallback in force is finite, the result is
    finite; hence the four numeric fields of the payload are finite numbers
    when the corresponding form fields are not non-finite numbers. *)
Theorem toNumber_finite :
  (forall (v : JsValue) (f : option number),
      non_finite_number v = false ->
      Js.isFinite (default_arg pos_zero f) = true ->
      Js.isFinite (toNumber v f) = true)
  /\ (forall (salon data : JsValue),
         (forall k, In k numeric_fields -> non_finite_number (Js.get data k) = false) ->
         forall k, In k numeric_fields ->
           exists n, Js.get (cleaned salon data) k = VNumber n /\ Js.isFinite n = true).
Proof.
  assert (A : forall (v : JsValue) (f : option number),
             non_finite_number v = false ->
             Js.isFinite (default_arg pos_zero f) = true ->
             Js.isFinite (toNumber v f) = true).
  { intros v f Hv Hf. unfold toNumber. destruct v; simpl in *; trivial.
    - now apply negb_false_iff in Hv.
    - destruct (Js.isFinite (Js.Number (Js.trim s))) eqn:E; trivial. }
  split; [exact A|].
  intros salon data H k Hk.
  pose proof (H k Hk) as Hv.
  simpl in Hk. destruct Hk as [<-|[<-|[<-|[<-|[]]]]];
    eexists; (split; [reflexivity|]); apply A; trivial.
Qed.

(** ** Schema validation *)

Lemma parse_valid_OK (r : Zod.ParseReturn) (v : JsValue) :
  Zod.issues r = [] -> Zod.value r = Some v -> r = Zod.OK v.
Proof. destruct r as [i w]; simpl; intros -> ->; reflexivity. Qed.

Lemma safeParse_success (schema : Zod.ZodType) (input data : JsValue) :
  Zod.safeParse schema input = Zod.Success data <-> schema [] input = Zod.OK data.
Proof.
  unfold Zod.safeParse. destruct (schema [] input) as [i w]; simpl.
  destruct i as [|x i], w as [w|]; split; intros H; try discriminate.
  - now injection H as ->.
  - now injection H as ->.
Qed.

Lemma safeParse_failure (schema : Zod.ZodType) (input : JsValue) (i : Zod.ZodIssue) :
  In i (Zod.issues (schema [] input)) ->
  Zod.safeParse schema input = Zod.Failure (Zod.issues (schema [] input)).
Proof.
  unfold Zod.safeParse. destruct (Zod.issues (schema [] input)); simpl.
  - intros [].
  - reflexivity.
Qed.

Section ObjectFields.

Variable p : list Zod.PathElem.
Variable props : list (js_string * JsValue).

Lemma object_fields_keys shape found out k :
  Zod.object_fields shape p props = (found, Some out) ->
  In k (List.map fst out) -> In k (List.map fst shape).
Proof.
  revert found out. induction shape as [|[k0 s0] shape IH]; cbn [Zod.object_fields In List.map fst]; intros found out.
  - intros H. injection H as _ <-. trivial.
  - destruct (Zod.object_fields shape p props) as [rest o] eqn:E.
    destruct (Zod.value (Zod.field_result p props k0 s0)) as [v|], o as [o|]; intros H; try discriminate.
    injection H as _ <-.
    destruct (Zod.is_defined v || Zod.has_key k0 props); simpl.
    + intros [->|H]; [now left | right; eapply IH; eauto].
    + intros H; right; eapply IH; eauto.
Qed.

Lemma lookup_not_key k (o : list (js_string * JsValue)) :
  ~ In k (List.map fst o) -> Js.lookup k o = None.
Proof.
  induction o as [|[k' v'] o IH]; simpl; trivial.
  intros H. rewrite js_string_eqb_neq by (intros ->; apply H; now left).
  apply IH. intros H'. apply H. now right.
Qed.

(** A valid object parse: every field parsed without issue, and the
    output holds the parsed value of every field. *)
Lemma object_fields_valid_inv shape out :
  NoDup (List.map fst shape) ->
  Zod.object_fields shape p props = ([], Some out) ->
  forall k schema, In (k, schema) shape ->
    exists v, Zod.field_result p props k schema = Zod.OK v /\ Js.get (VObject out) k = v.
Proof.
  revert out. induction shape as [|[k0 s0] shape IH]; cbn [Zod.object_fields In List.map fst]; intros out ND H k schema Hin.
  - destruct Hin.
  - inversion ND as [|? ? Hk0 ND']; subst.
    destruct (Zod.object_fields shape p props) as [rest o] eqn:E.
    destruct (Zod.value (Zod.field_result p props k0 s0)) as [v|] eqn:Ev, o as [o|]; try discriminate.
    injection H as Hi <-.
    apply app_eq_nil in Hi as [Hi ->].
    assert (Hk0o : Js.lookup k0 o = None).
    { apply lookup_not_key. intros Ho. apply Hk0.
      eapply object_fields_keys; eauto. }
    destruct Hin as [Heq|Hin].
    + injection Heq as <- <-. exists v. split.
      * apply parse_valid_OK; assumption.
      * simpl. destruct (Zod.is_defined v || Zod.has_key k0 props) eqn:D; simpl.
        -- now rewrite js_string_eqb_refl.
        -- rewrite Hk0o. apply orb_false_iff in D as [D _].
           destruct v; simpl in D; congruence.
    + destruct (IH o ND' eq_refl k schema Hin) as (w & Hw & Hg).
      exists w. split; [exact Hw|].
      assert (Hne : k <> k0).
      { intros ->. apply Hk0. change k0 with (fst (k0, schema)). now apply in_map. }
      simpl in *. destruct (Zod.is_defined v || Zod.has_key k0 props); simpl; trivial.
      now rewrite js_string_eqb_neq.
Qed.

(** Conversely, fields that all parse without issue give a valid object. *)
Lemma object_fields_valid_intro shape :
  (forall k schema, In (k, schema) shape -> exists v, Zod.field_result p props k schema = Zod.OK v) ->
  exists out, Zod.object_fields shape p props = ([], Some out).
Proof.
  induction shape as [|[k0 s0] shape IH]; cbn [Zod.object_fields]; intros H.
  - eexists; reflexivity.
  - destruct IH as [o Ho]; [intros; apply H; now right|].
    destruct (H k0 s0 (or_introl eq_refl)) as [v Hv].
    rewrite Ho, Hv. simpl. eexists; reflexivity.
Qed.

(** Every issue of a field is an issue of the object, and every issue of
    the object is an issue of one of its fields. *)
Lemma object_fields_issue_of_field shape k schema i :
  In (k, schema) shape -> In i (Zod.issues (Zod.field_result p props k schema)) ->
  In i (fst (Zod.object_fields shape p props)).
Proof.
  induction shape as [|[k0 s0] shape IH]; cbn [Zod.object_fields In List.map fst]; intros Hin Hi.
  - destruct Hin.
  - destruct (Zod.object_fields shape p props) as [rest o]. simpl in *.
    apply in_or_app. destruct Hin as [Heq|Hin].
    + injection Heq as <- <-. now left.
    + right. now apply IH.
Qed.

Lemma object_fields_issue_from_field shape i :
  In i (fst (Zod.object_fields shape p props)) ->
  exists k schema, In (k, schema) shape /\ In i (Zod.issues (Zod.field_result p props k schema)).
Proof.
  induction shape as [|[k0 s0] shape IH]; cbn [Zod.object_fields In List.map fst]; intros Hi.
  - destruct Hi.
  - destruct (Zod.object_fields shape p props) as [rest o]. simpl in *.
    apply in_app_or in Hi as [Hi|Hi].
    + exists k0, s0. split; [now left | exact Hi].
    + destruct (IH Hi) as (k & s & Hin & H). exists k, s. split; [now right | exact H].
Qed.

End ObjectFields.

(** *** Field by field *)

Ltac field_cases :=
  unfold Zod.OK, Zod.INVALID; cbn;
  split;
  [ let H := fresh "H" in
    intros H; try discriminate H; try (injection H as <-); auto
  | let H := fresh "H" in
    intros [H ->]; try discriminate H; auto ].

Lemma name_field_spec msg :
  field_spec (Zod.z_string_min 1 msg) nonempty_string same.
Proof.
  intros p d v. destruct d as [| | | n | [|c s] | |]; try destruct n; field_cases.
Qed.

Lemma description_field_spec :
  field_spec (Zod.default (VString (lit "")) (Zod.optional Zod.z_string))
    (absent_or is_string)
    (fun d => Js.coalesce d (VString (lit ""))).
Proof.
  intros p d v. destruct d as [| | | n | | |]; try destruct n; field_cases.
Qed.

Lemma number_or_string_field_spec :
  field_spec (Zod.union [Zod.z_number; Zod.z_string]) number_or_string same.
Proof.
  intros p d v. destruct d as [| | | n | | |]; try destruct n; field_cases.
Qed.

Lemma boolean_or_string_field_spec :
  field_spec (Zod.union [Zod.z_boolean; Zod.z_string]) boolean_or_string same.
Proof.
  intros p d v. destruct d as [| | | n | | |]; try destruct n; field_cases.
Qed.

Lemma z_string_cases p x :
  Zod.z_string p x
  = if is_string x then Zod.OK x
    else Zod.INVALID [Zod.invalid_type_issue p Zod.PTstring (Zod.getParsedType x)].
Proof. destruct x as [| | | n | | |]; try destruct n; reflexivity. Qed.

Lemma array_items_strings p i items :
  forall found out,
    Zod.array_items Zod.z_string p i items = (found, out) ->
    (found = [] <-> forallb is_string items = true)
    /\ (found = [] -> out = Some items).
Proof.
  revert i. induction items as [|x items IH]; intros i found out;
    cbn [Zod.array_items forallb].
  - intros H. injection H as <- <-. tauto.
  - destruct (Zod.array_items Zod.z_string p (S i) items) as [rest o] eqn:E.
    destruct (IH _ _ _ E) as [IH1 IH2].
    rewrite z_string_cases.
    intros H. injection H as <- <-.
    destruct (is_string x); cbn; (split; [split|]); intros H; try discriminate.
    + now apply IH1.
    + now apply IH1.
    + now rewrite (IH2 H).
Qed.

Lemma string_array_field_spec :
  field_spec (Zod.array Zod.z_string) string_array same.
Proof.
  intros p d v. destruct d as [| | | | | items |]; try solve [field_cases].
  unfold Zod.array.
  destruct (Zod.array_items Zod.z_string p 0 items) as [found out] eqn:E.
  destruct (array_items_strings _ _ _ _ _ E) as [H1 H2]. simpl.
  split.
  - intros H. injection H as Hf Ho. split; [now apply H1|].
    rewrite (H2 Hf) in Ho. simpl in Ho. now injection Ho as <-.
  - intros [Hs ->]. apply H1 in Hs. rewrite (H2 Hs), Hs. reflexivity.
Qed.

Lemma optional_field_spec schema P :
  field_spec schema P same -> field_spec (Zod.optional schema) (absent_or P) same.
Proof.
  intros H p d v. destruct d; try apply H.
  unfold Zod.OK; cbn. split.
  - intros E. now injection E as <-.
  - now intros [_ ->].
Qed.

(** *** The service schema *)

Lemma serviceShape_NoDup : NoDup (List.map fst serviceShape).
Proof.
  repeat (constructor; [vm_compute; intuition discriminate|]). constructor.
Qed.

Ltac field_at n :=
  match n with
  | O => left; reflexivity
  | S ?m => right; field_at m
  end.

(** An accepted input is well formed, and the parsed value carries its
    fields, with an absent description replaced by the empty string. *)
Lemma serviceSchema_success (input data : JsValue) :
  Zod.safeParse serviceSchema input = Zod.Success data ->
  well_formed input = true
  /\ Js.get data (lit "name") = Js.get input (lit "name")
  /\ Js.get data (lit "description")
     = Js.coalesce (Js.get input (lit "description")) (VString (lit ""))
  /\ Js.get data (lit "price") = Js.get input (lit "price")
  /\ Js.get data (lit "duration") = Js.get input (lit "duration")
  /\ Js.get data (lit "breakBefore") = Js.get input (lit "breakBefore")
  /\ Js.get data (lit "breakAfter") = Js.get input (lit "breakAfter")
  /\ Js.get data (lit "tags") = Js.get input (lit "tags")
  /\ Js.get data (lit "depositRequired") = Js.get input (lit "depositRequired").
Proof.
  intros H. apply safeParse_success in H.
  destruct input as [| | | n | | | props]; try destruct n; try discriminate H.
  unfold serviceSchema, Zod.object in H.
  destruct (Zod.object_fields serviceShape [] props) as [found out] eqn:E.
  injection H as -> Ho. destruct out as [o|]; [|discriminate Ho].
  injection Ho as <-.
  pose proof (object_fields_valid_inv [] props serviceShape o serviceShape_NoDup E) as F.
  destruct (F _ _ ltac:(field_at 0%nat)) as (v0 & P0 & G0).
  destruct (F _ _ ltac:(field_at 1%nat)) as (v1 & P1 & G1).
  destruct (F _ _ ltac:(field_at 2%nat)) as (v2 & P2 & G2).
  destruct (F _ _ ltac:(field_at 3%nat)) as (v3 & P3 & G3).
  destruct (F _ _ ltac:(field_at 4%nat)) as (v4 & P4 & G4).
  destruct (F _ _ ltac:(field_at 5%nat)) as (v5 & P5 & G5).
  destruct (F _ _ ltac:(field_at 6%nat)) as (v6 & P6 & G6).
  destruct (F _ _ ltac:(field_at 7%nat)) as (v7 & P7 & G7).
  clear F E.
  apply name_field_spec in P0 as [Q0 ->].
  apply description_field_spec in P1 as [Q1 ->].
  apply number_or_string_field_spec in P2 as [Q2 ->].
  apply number_or_string_field_spec in P3 as [Q3 ->].
  apply (optional_field_spec _ _ number_or_string_field_spec) in P4 as [Q4 ->].
  apply (optional_field_spec _ _ number_or_string_field_spec) in P5 as [Q5 ->].
  apply (optional_field_spec _ _ string_array_field_spec) in P6 as [Q6 ->].
  apply (optional_field_spec _ _ boolean_or_string_field_spec) in P7 as [Q7 ->].
  unfold well_formed. rewrite Q0, Q1, Q2, Q3, Q4, Q5, Q6, Q7.
  repeat split; assumption.
Qed.

(** Conversely every well-formed input is accepted. *)
Lemma well_formed_accepted (input : JsValue) :
  well_formed input = true -> accepted input.
Proof.
  destruct input as [| | | | | | props]; try discriminate.
  unfold well_formed. intros H.
  repeat (apply andb_true_iff in H as [H ?]).
  destruct (object_fields_valid_intro [] props serviceShape) as [out Hout].
  - intros k schema Hin. unfold Zod.field_result.
    repeat (destruct Hin as [Hin|Hin]; [injection Hin as <- <-|]); [..|destruct Hin];
      eexists.
    + apply name_field_spec; split; [eassumption|reflexivity].
    + apply description_field_spec; split; [eassumption|reflexivity].
    + apply number_or_string_field_spec; split; [eassumption|reflexivity].
    + apply number_or_string_field_spec; split; [eassumption|reflexivity].
    + apply (optional_field_spec _ _ number_or_string_field_spec);
        split; [eassumption|reflexivity].
    + apply (optional_field_spec _ _ number_or_string_field_spec);
        split; [eassumption|reflexivity].
    + apply (optional_field_spec _ _ string_array_field_spec);
        split; [eassumption|reflexivity].
    + apply (optional_field_spec _ _ boolean_or_string_field_spec);
        split; [eassumption|reflexivity].
  - exists (VObject out). apply safeParse_success.
    unfold serviceSchema, Zod.object. now rewrite Hout.
Qed.

Lemma serviceSchema_accepts_iff (input : JsValue) :
  accepted input <-> well_formed input = true.
Proof.
  split.
  - intros [data H]. now apply serviceSchema_success in H.
  - apply well_formed_accepted.
Qed.

(** ** The payload of [onSubmit] *)

(** C1, as amended.  For every accepted form value and every salon value
    the payload is normalized: name is the form's name; description is the
    form's description, or "" when absent; price, duration, breakBefore and
    breakAfter are [toNumber] of the form fields (fallback 0); tags is the
    form's tags when an array and [] otherwise; depositRequired is [toBool]
    of the form field (fallback false); price and duration are numbers and
    depositRequired is a boolean.  salonId is the salon's id when that id is
    neither null nor undefined, and undefined otherwise (no salon loaded,
    or a salon without id or with a null id). *)
Theorem onSubmit_payload (salon input data : JsValue) :
  Zod.safeParse serviceSchema input = Zod.Success data ->
  let payload := cleaned salon data in
  Js.get payload (lit "name") = Js.get input (lit "name")
  /\ Js.get payload (lit "description")
     = Js.coalesce (Js.get input (lit "description")) (str "")
  /\ Js.get payload (lit "price") = VNumber (toNumber (Js.get input (lit "price")) None)
  /\ Js.get payload (lit "duration")
     = VNumber (toNumber (Js.get input (lit "duration")) None)
  /\ Js.get payload (lit "breakBefore")
     = VNumber (toNumber (Js.get input (lit "breakBefore")) (Some pos_zero))
  /\ Js.get payload (lit "breakAfter")
     = VNumber (toNumber (Js.get input (lit "breakAfter")) (Some pos_zero))
  /\ Js.get payload (lit "tags")
     = (if Js.isArray (Js.get input (lit "tags"))
        then Js.get input (lit "tags") else VArray [])
  /\ Js.get payload (lit "depositRequired")
     = VBool (toBool (Js.get input (lit "depositRequired")) (Some false))
  /\ Js.typeof (Js.get payload (lit "price")) = Js.TNumber
  /\ Js.typeof (Js.get payload (lit "duration")) = Js.TNumber
  /\ Js.typeof (Js.get payload (lit "depositRequired")) = Js.TBoolean
  /\ (Js.nullish salon = true -> Js.get payload (lit "salonId") = VUndefined)
  /\ (Js.nullish (Js.get salon (lit "id")) = true ->
      Js.get payload (lit "salonId") = VUndefined)
  /\ (Js.nullish (Js.get salon (lit "id")) = false ->
      Js.get payload (lit "salonId") = Js.get salon (lit "id")).
Proof.
  intros H payload.
  destruct (serviceSchema_success _ _ H)
    as (_ & Hname & Hdesc & Hprice & Hdur & Hbb & Hba & Htags & Hdep).
  subst payload.
  rewrite get_cleaned_name, get_cleaned_description, get_cleaned_tags.
  change (Js.get (cleaned salon data) (lit "price"))
    with (VNumber (toNumber (Js.get data (lit "price")) None)).
  change (Js.get (cleaned salon data) (lit "duration"))
    with (VNumber (toNumber (Js.get data (lit "duration")) None)).
  change (Js.get (cleaned salon data) (lit "breakBefore"))
    with (VNumber (toNumber (Js.get data (lit "breakBefore")) (Some pos_zero))).
  change (Js.get (cleaned salon data) (lit "breakAfter"))
    with (VNumber (toNumber (Js.get data (lit "breakAfter")) (Some pos_zero))).
  change (Js.get (cleaned salon data) (lit "depositRequired"))
    with (VBool (toBool (Js.get data (lit "depositRequired")) (Some false))).
  change (Js.get (cleaned salon data) (lit "salonId"))
    with (Js.coalesce (Js.opt_get salon (lit "id")) VUndefined).
  rewrite Hname, Hdesc, Hprice, Hdur, Hbb, Hba, Htags, Hdep.
  repeat split.
  - destruct (Js.get input (lit "description")); reflexivity.
  - intros Hs. unfold Js.opt_get. now rewrite Hs.
  - intros Hs. unfold Js.opt_get, Js.coalesce.
    destruct (Js.nullish salon); [reflexivity|]. rewrite Hs. reflexivity.
  - intros Hs. unfold Js.opt_get, Js.coalesce.
    destruct (Js.nullish salon) eqn:E.
    + destruct salon; discriminate.
    + now rewrite Hs.
Qed.

Lemma onSubmit_payload_witness :
  Zod.safeParse serviceSchema form_coupe = Zod.Success form_coupe
  /\ Js.get (cleaned salon_1 form_coupe) (lit "name") = str "Coupe + Brushing"
  /\ Js.get (cleaned salon_1 form_coupe) (lit "salonId") = str "salon-1"
  /\ Js.get (cleaned VUndefined form_coupe) (lit "salonId") = VUndefined.
Proof.
  assert (H : Zod.safeParse serviceSchema form_coupe = Zod.Success form_coupe)
    by reflexivity.
  split; [exact H|]. split; [|split].
  - exact (proj1 (onSubmit_payload salon_1 form_coupe form_coupe H)).
  - apply (onSubmit_payload salon_1 form_coupe form_coupe H). reflexivity.
  - destruct (onSubmit_payload VUndefined form_coupe form_coupe H)
      as (_ & _ & _ & _ & _ & _ & _ & _ & _ & _ & _ & Hs & _).
    apply Hs. reflexivity.
Defined.

(** C1 as stated fails on a salon whose id is null: the salon is loaded,
    yet the payload's salonId is undefined and not the salon's id. *)
Lemma salonId_null_counterexample :
  Zod.safeParse serviceSchema form_coupe = Zod.Success form_coupe
  /\ Js.nullish salon_null_id = false
  /\ Js.get salon_null_id (lit "id") = VNull
  /\ Js.get (cleaned salon_null_id form_coupe) (lit "salonId") = VUndefined
  /\ Js.get (cleaned salon_null_id form_coupe) (lit "salonId")
     <> Js.get salon_null_id (lit "id").
Proof. repeat split. discriminate. Qed.

(** ** Optional attributes *)

(** C5, as amended.  [serviceSchema] accepts every input with an
    acceptable name, price and duration that omits description,
    breakBefore, breakAfter, tags and depositRequired; parsing defaults
    description to ""; and for such inputs the payload has breakBefore = 0,
    breakAfter = 0, tags = [] and depositRequired = false. *)
Theorem optional_attributes (salon input : JsValue) :
  required_ok input = true ->
  omits_optional input ->
  exists data,
    Zod.safeParse serviceSchema input = Zod.Success data
    /\ Js.get data (lit "description") = str ""
    /\ Js.get (cleaned salon data) (lit "breakBefore") = VNumber pos_zero
    /\ Js.get (cleaned salon data) (lit "breakAfter") = VNumber pos_zero
    /\ Js.get (cleaned salon data) (lit "tags") = VArray []
    /\ Js.get (cleaned salon data) (lit "depositRequired") = VBool false.
Proof.
  intros Hreq (Hd & Hbb & Hba & Ht & Hdep).
  unfold required_ok in Hreq.
  apply andb_true_iff in Hreq as [Hreq Hdur].
  apply andb_true_iff in Hreq as [Hname Hprice].
  destruct (well_formed_accepted input) as [data Hdata].
  { destruct input as [| | | | | | props]; try discriminate Hname.
    unfold well_formed. rewrite Hname, Hprice, Hdur, Hd, Hbb, Hba, Ht, Hdep.
    reflexivity. }
  exists data. split; [exact Hdata|].
  destruct (onSubmit_payload salon input data Hdata)
    as (_ & _ & _ & _ & Pbb & Pba & Pt & Pdep & _).
  destruct (serviceSchema_success _ _ Hdata) as (_ & _ & Hdesc & _).
  rewrite Hdesc, Pbb, Pba, Pt, Pdep, Hd, Hbb, Hba, Ht, Hdep.
  repeat split.
Qed.

Lemma optional_attributes_witness :
  exists data,
    Zod.safeParse serviceSchema form_required_only = Zod.Success data
    /\ Js.get data (lit "description") = str ""
    /\ Js.get (cleaned salon_1 data) (lit "breakBefore") = VNumber pos_zero
    /\ Js.get (cleaned salon_1 data) (lit "breakAfter") = VNumber pos_zero
    /\ Js.get (cleaned salon_1 data) (lit "tags") = VArray []
    /\ Js.get (cleaned salon_1 data) (lit "depositRequired") = VBool false.
Proof.
  apply (optional_attributes salon_1 form_required_only).
  - reflexivity.
  - repeat split.
Defined.

(** C5 as stated fails on the empty object: it omits the five optional
    attributes and is rejected, its name, price and duration missing. *)
Lemma empty_form_counterexample :
  omits_optional (VObject []) /\ ~ accepted (VObject []).
Proof.
  split; [repeat split|].
  intros H. apply serviceSchema_accepts_iff in H. discriminate H.
Qed.

(** ** Client-side validation *)

(** C4 as stated fails: a non-empty name with a numeric price and duration
    is rejected when tags is not an array, and also when the price is the
    number NaN. *)
Lemma typed_required_fields_counterexample :
  (typed_required_fields form_bad_tags /\ ~ accepted form_bad_tags)
  /\ (typed_required_fields form_nan_price /\ ~ accepted form_nan_price).
Proof.
  split; (split; [repeat split; left; reflexivity|]);
    intros H; apply serviceSchema_accepts_iff in H; discriminate H.
Qed.

Lemma empty_name_issue (input : JsValue) :
  Js.get input (lit "name") = str "" ->
  Zod.safeParse serviceSchema input = Zod.Failure (Zod.issues (serviceSchema [] input))
  /\ In nom_requis (Zod.issues (serviceSchema [] input)).
Proof.
  intros Hname.
  assert (Hin : In nom_requis (Zod.issues (serviceSchema [] input))).
  { destruct input as [| | | | | | props]; try discriminate Hname.
    unfold serviceSchema, Zod.object.
    pose proof (object_fields_issue_of_field [] props serviceShape
                  (lit "name") (Zod.z_string_min 1 (lit "Nom requis")) nom_requis
                  ltac:(field_at 0%nat)) as H.
    destruct (Zod.object_fields serviceShape [] props) as [found out].
    simpl. apply H. unfold Zod.field_result. rewrite Hname. left. reflexivity. }
  split; [|exact Hin].
  eapply safeParse_failure; eassumption.
Qed.

Section PageProperties.

Context {platform : Platform}.

(** C4, as amended.  [serviceSchema] rejects every input whose name is
    the empty string, with the message "Nom requis"; it accepts every
    input whose name is a non-empty string, whose price and duration are
    each a string or a number other than NaN, and whose description,
    breakBefore, breakAfter, tags and depositRequired are each absent or
    of their declared type; a validation failure keeps [onSubmit] from
    running, so submitting an empty name issues no request and leaves no
    mutation pending. *)
Theorem client_side_validation :
  (forall input, Js.get input (lit "name") = str "" ->
      exists errors,
        Zod.safeParse serviceSchema input = Zod.Failure errors /\ In nom_requis errors)
  /\ (forall input,
         nonempty_string (Js.get input (lit "name")) = true ->
         number_or_string (Js.get input (lit "price")) = true ->
         number_or_string (Js.get input (lit "duration")) = true ->
         absent_or is_string (Js.get input (lit "description")) = true ->
         absent_or number_or_string (Js.get input (lit "breakBefore")) = true ->
         absent_or number_or_string (Js.get input (lit "breakAfter")) = true ->
         absent_or string_array (Js.get input (lit "tags")) = true ->
         absent_or boolean_or_string (Js.get input (lit "depositRequired")) = true ->
         accepted input)
  /\ (forall st errors,
         Zod.safeParse serviceSchema (formValues st) = Zod.Failure errors ->
         handleSubmit st = (form_setValues (formValues st) errors st, []))
  /\ (forall st, Js.get (formValues st) (lit "name") = str "" ->
         snd (dispatch st SubmitForm) = []
         /\ createPending (fst (dispatch st SubmitForm)) = createPending st
         /\ updatePending (fst (dispatch st SubmitForm)) = updatePending st).
Proof.
  split; [|split; [|split]].
  - intros input H. destruct (empty_name_issue input H) as [H1 H2]. eauto.
  - intros input Hn Hp Hd Hde Hbb Hba Ht Hdr.
    apply well_formed_accepted.
    destruct input as [| | | | | | props]; try discriminate Hn.
    unfold well_formed. now rewrite Hn, Hp, Hd, Hde, Hbb, Hba, Ht, Hdr.
  - intros st errors H. unfold handleSubmit. now rewrite H.
  - intros st H. destruct (empty_name_issue _ H) as [H1 _].
    unfold dispatch. destruct (disabled (submitButton st)); [auto|].
    unfold handleSubmit. rewrite H1. simpl. auto.
Qed.

(** ** Failure handling *)

(** C6, as amended.  For a response with [ok] false, the create and update
    mutation functions show the error toast of [onApiError] and then throw,
    and the page treats the mutation as failed ([onError] runs, [onSuccess]
    does not); the toast's message is the body's message field when the
    body parses as JSON and that field is truthy, else the body's JSON, and
    "Erreur inconnue" when neither [res.json()] nor [res.text()] can be
    read.  For a response with [ok] true whose body parses as JSON they
    return the parsed body and the page runs [onSuccess]; when the body
    does not parse they reject with the error of [res.json()]; either way
    they show no toast. *)
Theorem failure_handling (res : Response) (payload variables : JsValue) :
  (ok res = false ->
     createServiceMutation_mutationFn payload (ApiReturns res)
     = ([createServiceMutation_request payload; ShowToast (onApiError res)],
        Rejected (new_Error (lit "create failed")))
     /\ updateServiceMutation_mutationFn variables (ApiReturns res)
        = ([updateServiceMutation_request variables; ShowToast (onApiError res)],
           Rejected (new_Error (lit "update failed")))
     /\ (forall st, createPending st = true ->
           dispatch st (CreateSettled (ApiReturns res))
           = (setPending false (updatePending st) st,
              ShowToast (onApiError res)
                :: (if isUnauthorizedError (new_Error (lit "create failed"))
                    then unauthorized_effects else [])))
     /\ (forall st, updatePending st = true ->
           dispatch st (UpdateSettled (ApiReturns res))
           = (setPending (createPending st) false st,
              ShowToast (onApiError res)
                :: (if isUnauthorizedError (new_Error (lit "update failed"))
                    then unauthorized_effects else []))))
  /\ (ok res = true ->
        (forall body, json res = Fulfilled body ->
            createServiceMutation_mutationFn payload (ApiReturns res)
            = ([createServiceMutation_request payload], Fulfilled body)
            /\ updateServiceMutation_mutationFn variables (ApiReturns res)
               = ([updateServiceMutation_request variables], Fulfilled body)
            /\ (forall st, createPending st = true ->
                  dispatch st (CreateSettled (ApiReturns res))
                  = createServiceMutation_onSuccess
                      (setPending false (updatePending st) st))
            /\ (forall st, updatePending st = true ->
                  dispatch st (UpdateSettled (ApiReturns res))
                  = updateServiceMutation_onSuccess
                      (setPending (createPending st) false st)))
        /\ (forall reason, json res = Rejected reason ->
              createServiceMutation_mutationFn payload (ApiReturns res)
              = ([createServiceMutation_request payload], Rejected reason)
              /\ updateServiceMutation_mutationFn variables (ApiReturns res)
                 = ([updateServiceMutation_request variables], Rejected reason)))
  /\ onApiError res
     = {| title := lit "Erreur";
          description := Js.or (apiErrorMessage res)
                           (str "Impossible de créer le service.");
          variant := Some (lit "destructive") |}
  /\ (forall data, json res = Fulfilled data ->
        Js.truthy (Js.opt_get data (lit "message")) = true ->
        apiErrorMessage res = Js.opt_get data (lit "message"))
  /\ (forall data, json res = Fulfilled data ->
        Js.truthy (Js.opt_get data (lit "message")) = false ->
        apiErrorMessage res = VString (JSON_stringify data))
  /\ (forall reason reason', json res = Rejected reason -> text res = Rejected reason' ->
        apiErrorMessage res = str "Erreur inconnue").
Proof.
  unfold createServiceMutation_mutationFn, updateServiceMutation_mutationFn,
    createServiceMutation_resume, updateServiceMutation_resume.
  split; [|split; [|split; [|split; [|split]]]].
  - intros Hok. rewrite Hok. cbn [negb].
    split; [reflexivity|]. split; [reflexivity|]. split.
    + intros st Hp. cbn [dispatch]. unfold createServiceMutation_resume.
      rewrite Hp, Hok. reflexivity.
    + intros st Hp. cbn [dispatch]. unfold updateServiceMutation_resume.
      rewrite Hp, Hok. reflexivity.
  - intros Hok. rewrite Hok. cbn [negb]. split.
    + intros body Hb. rewrite Hb.
      split; [reflexivity|]. split; [reflexivity|]. split.
      * intros st Hp. cbn [dispatch]. unfold createServiceMutation_resume.
        rewrite Hp, Hok, Hb. reflexivity.
      * intros st Hp. cbn [dispatch]. unfold updateServiceMutation_resume.
        rewrite Hp, Hok, Hb. reflexivity.
    + intros reason Hr. rewrite Hr. split; reflexivity.
  - reflexivity.
  - intros data Hj Ht. unfold apiErrorMessage, Js.or. now rewrite Hj, Ht.
  - intros data Hj Ht. unfold apiErrorMessage, Js.or. now rewrite Hj, Ht.
  - intros reason reason' Hj Ht. unfold apiErrorMessage. now rewrite Hj, Ht.
Qed.

(** ** The salon is only read *)

Lemma cleaned_salon_id (s s' data : JsValue) :
  Js.opt_get s' (lit "id") = Js.opt_get s (lit "id") ->
  cleaned s' data = cleaned s data.
Proof. intros H. unfold cleaned. now rewrite H. Qed.

Lemma services_url_not_salon (suffix : js_string) :
  lit "/api/services" ++ suffix <> lit "/api/salon".
Proof. intros H. vm_compute in H. discriminate H. Qed.

Lemma onSubmit_targets_services (data : JsValue) (st : PageState) :
  salon (fst (onSubmit data st)) = salon st
  /\ Forall targets_services (snd (onSubmit data st)).
Proof.
  unfold onSubmit. destruct (Js.truthy (editing st)); (split; [reflexivity|]);
    (apply Forall_cons; [split|apply Forall_nil]).
  - change (lit "/api/services/" ++ ?x) with (lit "/api/services" ++ 47%N :: x).
    apply services_url_not_salon.
  - right. split; [reflexivity|]. eexists; reflexivity.
  - apply (services_url_not_salon []).
  - left. split; reflexivity.
Qed.

Lemma unauthorized_targets_services (b : bool) :
  Forall targets_services (if b then unauthorized_effects else []).
Proof. destruct b; [|apply Forall_nil]. repeat (apply Forall_cons; [exact I|]). apply Forall_nil. Qed.

(** C7. Apart from the query library delivering fresh query data, no
    event of the page changes the salon; every request the page sends is
    a POST to /api/services or a PUT to /api/services/<id>, never a
    request to /api/salon, and the only query it invalidates is
    ["/api/services"]; and the page depends on the salon through
    [salon?.id] alone, which [onSubmit] copies into the payload: with
    another salon of the same id every event has the same effects and
    the same next state. *)
Theorem salon_read_only (st : PageState) (ev : Event) :
  (forall queryKey data, ev <> QueryUpdated queryKey data) ->
  salon (fst (dispatch st ev)) = salon st
  /\ Forall targets_services (snd (dispatch st ev))
  /\ (forall s',
        Js.opt_get s' (lit "id") = Js.opt_get (salon st) (lit "id") ->
        dispatch (withSalon s' st) ev
        = (withSalon s' (fst (dispatch st ev)), snd (dispatch st ev))).
Proof.
  intros Hev. destruct ev as [| s | | open | name v | | answer | answer | k d];
    try (exfalso; eapply Hev; reflexivity);
    try (split; [reflexivity|split; [constructor|reflexivity]]).
  - (* SubmitForm *)
    cbn [dispatch]. destruct (disabled (submitButton st)) eqn:D.
    + split; [reflexivity|]. split; [constructor|].
      intros s' _. change (disabled (submitButton (withSalon s' st)))
        with (disabled (submitButton st)). now rewrite D.
    + unfold handleSubmit.
      change (disabled (submitButton (withSalon ?s st)))
        with (disabled (submitButton st)).
      change (formValues (withSalon ?s st)) with (formValues st).
      rewrite D.
      destruct (Zod.safeParse serviceSchema (formValues st)) as [data|errors].
      * split; [|split].
        -- now rewrite (proj1 (onSubmit_targets_services _ _)).
        -- apply onSubmit_targets_services.
        -- intros s' Hs. unfold onSubmit.
           change (salon (form_setValues ?v ?e (withSalon s' st))) with s'.
           change (salon (form_setValues ?v ?e st)) with (salon st).
           rewrite (cleaned_salon_id _ _ data Hs).
           change (editing (form_setValues ?v ?e (withSalon s' st)))
             with (editing st).
           change (editing (form_setValues ?v ?e st)) with (editing st).
           destruct (Js.truthy (editing st)); reflexivity.
      * split; [reflexivity|]. split; [constructor|reflexivity].
  - (* CreateSettled *)
    cbn [dispatch]. change (createPending (withSalon ?s st)) with (createPending st).
    destruct (createPending st);
      [|split; [reflexivity|split; [constructor|reflexivity]]].
    unfold createServiceMutation_resume.
    destruct answer as [reason|res]; [|destruct (ok res); cbn [negb]];
      try destruct (json res) as [body|reason];
      cbn [createServiceMutation_onSuccess createServiceMutation_onError fst snd app];
      (split; [reflexivity|split; [|reflexivity]]);
      repeat constructor; apply unauthorized_targets_services.
  - (* UpdateSettled *)
    cbn [dispatch]. change (updatePending (withSalon ?s st)) with (updatePending st).
    destruct (updatePending st);
      [|split; [reflexivity|split; [constructor|reflexivity]]].
    unfold updateServiceMutation_resume.
    destruct answer as [reason|res]; [|destruct (ok res); cbn [negb]];
      try destruct (json res) as [body|reason];
      cbn [updateServiceMutation_onSuccess updateServiceMutation_onError fst snd app];
      (split; [reflexivity|split; [|reflexivity]]);
      repeat constructor; apply unauthorized_targets_services.
Qed.

(** ** The submit button as guard *)

Lemma handleSubmit_requests (st : PageState) :
  (requests (snd (handleSubmit st)) <= 1)%nat.
Proof.
  unfold handleSubmit.
  destruct (Zod.safeParse serviceSchema (formValues st)) as [data|errors];
    [|cbn; lia].
  unfold onSubmit.
  destruct (Js.truthy (editing (form_setValues (formValues st) [] st))); cbn; lia.
Qed.

(** An event starts at most one request. *)
Lemma dispatch_requests (st : PageState) (ev : Event) :
  (requests (snd (dispatch st ev)) <= 1)%nat.
Proof.
  destruct ev as [| s | | open | name v | | answer | answer | k d];
    try (cbn; lia).
  - (* SubmitForm *)
    cbn [dispatch]. destruct (disabled (submitButton st)); [cbn; lia|].
    apply handleSubmit_requests.
  - (* CreateSettled *)
    cbn [dispatch].
    destruct (createPending st); [|cbn; lia].
    unfold createServiceMutation_resume.
    destruct answer as [reason|res]; [|destruct (ok res); cbn [negb]];
      try destruct (json res) as [body|reason];
      cbn [createServiceMutation_onSuccess createServiceMutation_onError fst snd app];
      try destruct (isUnauthorizedError _);
      cbn; lia.
  - (* UpdateSettled *)
    cbn [dispatch].
    destruct (updatePending st); [|cbn; lia].
    unfold updateServiceMutation_resume.
    destruct answer as [reason|res]; [|destruct (ok res); cbn [negb]];
      try destruct (json res) as [body|reason];
      cbn [updateServiceMutation_onSuccess updateServiceMutation_onError fst snd app];
      try destruct (isUnauthorizedError _);
      cbn; lia.
Qed.

(** On a screen whose button is the one of the current state, an event does
    what [dispatch] says. *)
Lemma screen_step_up_to_date (sc : Screen) (ev : Event) :
  shown sc = submitButton (page sc) ->
  screen_step sc (Deliver ev)
  = ({| page := fst (dispatch (page sc) ev); shown := shown sc |},
     snd (dispatch (page sc) ev)).
Proof.
  intros Hshown. destruct sc as [st b]. cbn [page shown] in *. subst b.
  destruct ev; cbn [screen_step dispatch page shown];
    try (destruct (dispatch st _) as [st1 e1] eqn:E; cbn in E; rewrite E; reflexivity);
    try reflexivity.
  - destruct (disabled (submitButton st)); [reflexivity|].
    now destruct (handleSubmit st).
  - destruct (createPending st); [|reflexivity].
    destruct (createServiceMutation_resume answer) as [effects [body|error]];
      reflexivity.
  - destruct (updatePending st); [|reflexivity].
    destruct (updateServiceMutation_resume answer) as [effects [body|error]];
      reflexivity.
Qed.

(** C8, as amended.  Whenever one of the two mutations is pending the
    submit button renders disabled and labelled "Enregistrement..."; once
    the page has rendered in such a state a submission starts no request;
    and whatever is on the screen, an event starts at most one request.
    The guard is the rendered button only: a submission let through by the
    button on the screen starts its request whether or not a mutation is
    pending already. *)
Theorem submit_button_guard :
  (forall st, createPending st || updatePending st = true ->
      disabled (submitButton st) = true
      /\ label (submitButton st) = lit "Enregistrement...")
  /\ (forall sc,
         createPending (page sc) || updatePending (page sc) = true ->
         screen_step (render sc) (Deliver SubmitForm) = (render sc, []))
  /\ (forall sc e, (requests (snd (screen_step sc e)) <= 1)%nat)
  /\ (forall sc,
         disabled (shown sc) = false ->
         snd (screen_step sc (Deliver SubmitForm)) = snd (handleSubmit (page sc))).
Proof.
  split; [|split; [|split]].
  - intros st H. unfold submitButton. cbn [disabled label]. now rewrite H.
  - intros sc H. unfold render. cbn [screen_step shown page submitButton disabled].
    now rewrite H.
  - intros sc [|ev].
    + cbn. lia.
    + destruct ev;
        try (cbn [screen_step];
             match goal with
             | |- context [dispatch ?st ?ev] =>
                 pose proof (dispatch_requests st ev);
                 destruct (dispatch st ev) as [st1 e1]
             end; cbn [fst snd] in *; assumption).
      cbn [screen_step]. destruct (disabled (shown sc)); [cbn; lia|].
      pose proof (handleSubmit_requests (page sc)).
      destruct (handleSubmit (page sc)) as [st1 e1]. cbn [fst snd] in *. assumption.
  - intros sc H. cbn [screen_step]. rewrite H.
    now destruct (handleSubmit (page sc)).
Qed.

End PageProperties.

(** * The statements at concrete inputs *)

Lemma toNumber_spec_witness :
  toNumber VNull (Some (number_of_Z 7)) = number_of_Z 7
  /\ toNumber (VBool true) (Some pos_zero) = pos_zero.
Proof.
  destruct toNumber_spec as (_ & _ & _ & _ & H & _).
  split; apply H; discriminate.
Defined.

Lemma toBool_spec_witness :
  toBool (str "yes") (Some true) = false
  /\ toBool VUndefined (Some true) = true
  /\ toBool (str "true") (Some false) = true.
Proof.
  destruct toBool_spec as (_ & Hiff & Hstr & _ & _ & Hother & _).
  split; [|split].
  - apply Hstr. discriminate.
  - apply Hother; discriminate.
  - apply Hiff. reflexivity.
Defined.

Lemma toNumber_finite_witness :
  Js.isFinite (toNumber (str "1e400") (Some (number_of_Z 7))) = true
  /\ exists n,
       Js.get (cleaned salon_1 form_coupe) (lit "price") = VNumber n
       /\ Js.isFinite n = true.
Proof.
  destruct toNumber_finite as [Hv Hp].
  split.
  - apply Hv; reflexivity.
  - apply (Hp salon_1 form_coupe).
    + intros k Hk. simpl in Hk.
      destruct Hk as [<-|[<-|[<-|[<-|[]]]]]; reflexivity.
    + left. reflexivity.
Defined.

Lemma client_side_validation_witness :
  (exists errors,
      Zod.safeParse serviceSchema form_empty_name = Zod.Failure errors
      /\ In nom_requis errors)
  /\ accepted form_coupe
  /\ snd (dispatch (platform := examplePlatform) state_empty_name SubmitForm) = [].
Proof.
  destruct (client_side_validation (platform := examplePlatform))
    as (Hrej & Hacc & _ & Hsub).
  split; [|split].
  - apply Hrej. reflexivity.
  - apply Hacc; reflexivity.
  - apply Hsub. reflexivity.
Defined.

Lemma failure_handling_witness :
  createServiceMutation_mutationFn (platform := examplePlatform)
    (cleaned salon_1 form_coupe) (ApiReturns response_refused)
  = ([createServiceMutation_request (cleaned salon_1 form_coupe);
      ShowToast {| title := lit "Erreur";
                   description := str "Nom déjà utilisé";
                   variant := Some (lit "destructive") |}],
     Rejected (new_Error (lit "create failed")))
  /\ createServiceMutation_mutationFn (platform := examplePlatform)
       (cleaned salon_1 form_coupe) (ApiReturns response_created)
     = ([createServiceMutation_request (cleaned salon_1 form_coupe)],
        Fulfilled (VObject [(lit "id", str "svc-1")]))
  /\ createServiceMutation_mutationFn (platform := examplePlatform)
       (cleaned salon_1 form_coupe) (ApiReturns response_ok_unparsable)
     = ([createServiceMutation_request (cleaned salon_1 form_coupe)],
        Rejected (new_Error (lit "Unexpected token < in JSON")))
  /\ apiErrorMessage (platform := examplePlatform) response_refused
     = str "Nom déjà utilisé"
  /\ apiErrorMessage (platform := examplePlatform)
       {| ok := false; json := Fulfilled VNull;
          text := Rejected (new_Error (lit "body used")) |}
     = str "null"
  /\ apiErrorMessage (platform := examplePlatform) response_refused_unparsable
     = str "Erreur inconnue".
Proof.
  split; [|split; [|split; [|split; [|split]]]].
  - apply (failure_handling (platform := examplePlatform) response_refused
             (cleaned salon_1 form_coupe) VUndefined).
    reflexivity.
  - destruct (failure_handling (platform := examplePlatform) response_created
                (cleaned salon_1 form_coupe) VUndefined) as (_ & Hok & _).
    destruct (Hok eq_refl) as [Hbody _].
    apply (Hbody (VObject [(lit "id", str "svc-1")])). reflexivity.
  - destruct (failure_handling (platform := examplePlatform) response_ok_unparsable
                (cleaned salon_1 form_coupe) VUndefined) as (_ & Hok & _).
    destruct (Hok eq_refl) as [_ Hrej].
    apply (Hrej (new_Error (lit "Unexpected token < in JSON"))). reflexivity.
  - destruct (failure_handling (platform := examplePlatform) response_refused
                VUndefined VUndefined) as (_ & _ & _ & Hmsg & _).
    apply (Hmsg (VObject [(lit "message", str "Nom déjà utilisé")])); reflexivity.
  - destruct (failure_handling (platform := examplePlatform)
                {| ok := false; json := Fulfilled VNull;
                   text := Rejected (new_Error (lit "body used")) |}
                VUndefined VUndefined) as (_ & _ & _ & _ & Hjson & _).
    apply (Hjson VNull); reflexivity.
  - destruct (failure_handling (platform := examplePlatform) response_refused_unparsable
                VUndefined VUndefined) as (_ & _ & _ & _ & _ & Hunknown).
    apply (Hunknown (new_Error (lit "Unexpected token < in JSON"))
             (new_Error (lit "body used"))); reflexivity.
Defined.

(** C6 as stated fails on a response with [ok] true whose body is no JSON:
    the mutation function does not return a parsed body, it rejects. *)
Lemma ok_unparsable_counterexample :
  ok response_ok_unparsable = true
  /\ snd (createServiceMutation_mutationFn (platform := examplePlatform)
            (cleaned salon_1 form_coupe) (ApiReturns response_ok_unparsable))
     = Rejected (new_Error (lit "Unexpected token < in JSON"))
  /\ (forall body,
        snd (createServiceMutation_mutationFn (platform := examplePlatform)
               (cleaned salon_1 form_coupe) (ApiReturns response_ok_unparsable))
        <> Fulfilled body)
  /\ (forall body,
        snd (updateServiceMutation_mutationFn (platform := examplePlatform)
               (VObject [(lit "id", str "svc-1"); (lit "data", cleaned salon_1 form_coupe)])
               (ApiReturns response_ok_unparsable))
        <> Fulfilled body).
Proof. repeat split; discriminate. Qed.

Lemma salon_read_only_witness :
  salon (fst (dispatch (platform := examplePlatform) state_filled SubmitForm)) = salon_1
  /\ Forall (targets_services (platform := examplePlatform))
       (snd (dispatch (platform := examplePlatform) state_filled SubmitForm)).
Proof.
  destruct (salon_read_only (platform := examplePlatform) state_filled SubmitForm)
    as (H1 & H2 & _).
  - intros queryKey data. discriminate.
  - split; [exact H1 | exact H2].
Defined.

Lemma submit_button_guard_witness :
  disabled (submitButton (setPending true false state_filled)) = true
  /\ label (submitButton (setPending true false state_filled)) = lit "Enregistrement..."
  /\ screen_step (platform := examplePlatform)
       (render {| page := setPending true false state_filled;
                  shown := submitButton state_filled |})
       (Deliver SubmitForm)
     = (render {| page := setPending true false state_filled;
                  shown := submitButton state_filled |}, [])
  /\ snd (screen_step (platform := examplePlatform) screen_filled (Deliver SubmitForm))
     = [ApiRequest (lit "POST") (lit "/api/services") (cleaned salon_1 form_coupe)].
Proof.
  destruct (submit_button_guard (platform := examplePlatform))
    as (Hbutton & Hguard & _ & Hthrough).
  split; [|split; [|split]].
  - apply Hbutton. reflexivity.
  - apply Hbutton. reflexivity.
  - apply Hguard. reflexivity.
  - rewrite Hthrough; reflexivity.
Defined.

(** C8 as stated fails on two submissions delivered before the page
    re-renders: after the first the creation is pending, its request in
    flight, and the second starts another request from the dialog. *)
Lemma double_submit_counterexample :
  let first := screen_step (platform := examplePlatform) screen_filled (Deliver SubmitForm) in
  snd first = [ApiRequest (lit "POST") (lit "/api/services") (cleaned salon_1 form_coupe)]
  /\ createPending (page (fst first)) = true
  /\ snd (screen_step (platform := examplePlatform) (fst first) (Deliver SubmitForm))
     = [ApiRequest (lit "POST") (lit "/api/services") (cleaned salon_1 form_coupe)]
  /\ requests
       (snd (screen_run (platform := examplePlatform) screen_filled
               [Deliver SubmitForm; Deliver SubmitForm])) = 2%nat.
Proof. repeat split. Qed.

(** The submit flow on the filled-in form: one POST carrying the payload,
    then the refusal shows the error toast and clears the pending flag. *)
Example submit_then_refused :
  run (platform := examplePlatform) state_filled
    [SubmitForm; CreateSettled (ApiReturns response_refused)]
  = (withForm form_coupe (withSalon salon_1 initialState),
     [ ApiRequest (lit "POST") (lit "/api/services") (cleaned salon_1 form_coupe);
       ShowToast {| title := lit "Erreur";
                    description := str "Nom déjà utilisé";
                    variant := Some (lit "destructive") |} ]).
Proof. reflexivity. Qed.

(** * Further properties *)

(** ** White space and separators in [toNumber] *)

Lemma trim_start_white_space (w s : js_string) :
  all_white_space w = true -> Js.trim_start (w ++ s) = Js.trim_start s.
Proof.
  induction w as [|c w IH]; simpl; trivial.
  intros H. apply andb_true_iff in H as [Hc Hw]. rewrite Hc. now apply IH.
Qed.

Lemma trim_start_app (s t : js_string) :
  Js.trim_start (s ++ t)
  = match Js.trim_start s with
    | [] => Js.trim_start t
    | _ :: _ => Js.trim_start s ++ t
    end.
Proof.
  induction s as [|c s IH]; simpl; trivial.
  destruct (Js.is_white_space c); [exact IH | reflexivity].
Qed.

Lemma trim_end_white_space (s w : js_string) :
  all_white_space w = true -> Js.trim_end (s ++ w) = Js.trim_end s.
Proof.
  intros H. unfold Js.trim_end. rewrite rev_app_distr.
  rewrite trim_start_white_space; trivial.
  unfold all_white_space in *. rewrite forallb_forall in *.
  intros c Hc. apply H. now apply in_rev.
Qed.

Lemma trim_white_space (pre s post : js_string) :
  all_white_space pre = true -> all_white_space post = true ->
  Js.trim (pre ++ s ++ post) = Js.trim s.
Proof.
  intros Hpre Hpost. unfold Js.trim.
  rewrite trim_start_white_space by exact Hpre.
  rewrite trim_start_app.
  destruct (Js.trim_start s) as [|c r] eqn:E.
  - rewrite <- (app_nil_r post), trim_start_white_space by exact Hpost.
    reflexivity.
  - now apply trim_end_white_space.
Qed.

(** X1. [toNumber] ignores white space around a string: with white space
    before and after, the result is that of the string itself, whatever
    the fallback. *)
Theorem toNumber_ignores_surrounding_white_space
  (pre s post : js_string) (f : option number) :
  all_white_space pre = true -> all_white_space post = true ->
  toNumber (VString (pre ++ s ++ post)) f = toNumber (VString s) f.
Proof.
  intros Hpre Hpost. unfold toNumber.
  now rewrite (trim_white_space pre s post Hpre Hpost).
Qed.

(** X2. [toNumber] of a string that is empty or all white space is 0,
    whatever the fallback: the fallback is not used for a blank field. *)
Theorem toNumber_blank_is_zero (s : js_string) (f : option number) :
  all_white_space s = true -> toNumber (VString s) f = pos_zero.
Proof.
  intros H. unfold toNumber.
  replace (Js.trim s) with (Js.trim []).
  - reflexivity.
  - symmetry. rewrite <- (app_nil_r s). apply (trim_white_space s [] []); trivial.
Qed.

(** *** A comma anywhere *)

Lemma take_digits_keeps (radix : N) (c : code_unit) :
  Js.digit_value radix c = None ->
  forall s acc count v n rest,
    Js.take_digits radix acc count s = (v, n, rest) -> In c s -> In c rest.
Proof.
  intros Hc. induction s as [|x s IH]; simpl; intros acc count v n rest H Hin.
  - destruct Hin.
  - destruct (Js.digit_value radix x) as [d|] eqn:Ex.
    + destruct Hin as [->|Hin]; [congruence|]. eapply IH; eauto.
    + injection H as _ _ <-. exact Hin.
Qed.

Lemma digit_value_comma (radix : N) : Js.digit_value radix comma = None.
Proof. reflexivity. Qed.

Lemma parse_radix_comma (radix : N) (s : js_string) :
  In comma s -> Js.parse_radix radix s = NaN.
Proof.
  intros Hin. unfold Js.parse_radix.
  destruct (Js.take_digits radix 0 0 s) as [[v n] rest] eqn:E.
  pose proof (take_digits_keeps radix comma (digit_value_comma radix) _ _ _ _ _ _ E Hin).
  destruct rest; [contradiction | reflexivity].
Qed.

Lemma parse_exponent_comma (s : js_string) :
  In comma s -> Js.parse_exponent s = None.
Proof.
  intros Hin. destruct s as [|c s]; [destruct Hin|].
  unfold Js.parse_exponent.
  destruct ((c =? 101) || (c =? 69))%N eqn:Ec; [|reflexivity].
  assert (Hs : In comma s).
  { destruct Hin as [Hc|Hin]; [rewrite Hc in Ec; vm_compute in Ec; discriminate Ec | exact Hin]. }
  assert (Hbody : forall (neg : bool) body, In comma body ->
            match Js.take_digits 10 0 0 body with
            | (v, count, []) =>
                if 0 <? count then Some (if neg then Z.opp v else v) else None
            | _ => None
            end = (None : option Z)).
  { intros neg body Hb.
    destruct (Js.take_digits 10 0 0 body) as [[v n] rest] eqn:E.
    pose proof (take_digits_keeps 10 comma (digit_value_comma 10) _ _ _ _ _ _ E Hb).
    destruct rest; [contradiction | reflexivity]. }
  destruct s as [|x s']; [destruct Hs|].
  destruct (N.eq_dec x 43) as [->|H43].
  - assert (Hb : In comma s')
      by (destruct Hs as [Hs|Hs]; [vm_compute in Hs; discriminate Hs | exact Hs]).
    exact (Hbody false s' Hb).
  - destruct (N.eq_dec x 45) as [->|H45].
    + assert (Hb : In comma s')
        by (destruct Hs as [Hs|Hs]; [vm_compute in Hs; discriminate Hs | exact Hs]).
      exact (Hbody true s' Hb).
    + pose proof (Hbody false (x :: s') Hs) as Hx.
      destruct x as [|p]; [exact Hx|].
      do 6 (destruct p as [p|p|]; try congruence; try exact Hx).
Qed.

Lemma parse_unsigned_decimal_comma (neg : bool) (s : js_string) :
  In comma s -> Js.parse_unsigned_decimal neg s = NaN.
Proof.
  intros Hin. unfold Js.parse_unsigned_decimal.
  destruct (js_string_eqb s (lit "Infinity")) eqn:Einf.
  { apply js_string_eqb_eq in Einf. subst s. vm_compute in Hin.
    repeat (destruct Hin as [Hin|Hin]; [discriminate Hin|]). destruct Hin. }
  destruct (Js.take_digits 10 0 0 s) as [[ip icount] r1] eqn:E1.
  pose proof (take_digits_keeps 10 comma (digit_value_comma 10) _ _ _ _ _ _ E1 Hin) as H1.
  assert (Hfin : forall m fcount r2, In comma r2 ->
            (if 0 <? icount + fcount
             then match Js.parse_exponent r2 with
                  | Some e => number_of_decimal neg m (e - fcount)
                  | None => NaN
                  end
             else NaN) = NaN).
  { intros m fcount r2 H2. rewrite (parse_exponent_comma r2 H2).
    now destruct (0 <? icount + fcount). }
  destruct r1 as [|x r]; [destruct H1|].
  destruct (N.eq_dec x 46) as [->|H46].
  - destruct (Js.take_digits 10 ip 0 r) as [[m fcount] r2] eqn:E2.
    apply Hfin.
    apply (take_digits_keeps 10 comma (digit_value_comma 10) _ _ _ _ _ _ E2).
    destruct H1 as [H1|H1]; [vm_compute in H1; discriminate H1 | exact H1].
  - pose proof (Hfin ip 0 (x :: r) H1) as Hx.
    destruct x as [|p]; [exact Hx|].
    do 6 (destruct p as [p|p|]; try congruence; try exact Hx).
Qed.

Lemma trim_start_keeps (c : code_unit) (s : js_string) :
  Js.is_white_space c = false -> In c s -> In c (Js.trim_start s).
Proof.
  intros Hc. induction s as [|x s IH]; simpl; [trivial|].
  intros Hin. destruct (Js.is_white_space x) eqn:Ex; [|exact Hin].
  destruct Hin as [->|Hin]; [congruence | now apply IH].
Qed.

Lemma trim_keeps (c : code_unit) (s : js_string) :
  Js.is_white_space c = false -> In c s -> In c (Js.trim s).
Proof.
  intros Hc Hin. unfold Js.trim, Js.trim_end.
  apply in_rev. rewrite rev_involutive.
  apply trim_start_keeps; trivial. apply in_rev. rewrite rev_involutive.
  now apply trim_start_keeps.
Qed.

Lemma StringToNumber_comma (s : js_string) :
  In comma s -> Js.StringToNumber s = NaN.
Proof.
  intros Hin. unfold Js.StringToNumber.
  pose proof (trim_keeps comma s eq_refl Hin) as Ht.
  destruct (Js.trim s) as [|a t]; [destruct Ht|].
  destruct (N.eq_dec a 48) as [->|H48].
  - destruct Ht as [Ht|Ht]; [vm_compute in Ht; discriminate Ht|].
    destruct t as [|p r]; [destruct Ht|].
    destruct ((p =? 120) || (p =? 88))%N eqn:Ex.
    { apply parse_radix_comma. destruct Ht as [Ht|Ht]; [|exact Ht].
      rewrite Ht in Ex. vm_compute in Ex. discriminate Ex. }
    destruct ((p =? 111) || (p =? 79))%N eqn:Eo.
    { apply parse_radix_comma. destruct Ht as [Ht|Ht]; [|exact Ht].
      rewrite Ht in Eo. vm_compute in Eo. discriminate Eo. }
    destruct ((p =? 98) || (p =? 66))%N eqn:Eb.
    { apply parse_radix_comma. destruct Ht as [Ht|Ht]; [|exact Ht].
      rewrite Ht in Eb. vm_compute in Eb. discriminate Eb. }
    apply parse_unsigned_decimal_comma. now right.
  - destruct (N.eq_dec a 43) as [->|H43].
    { apply parse_unsigned_decimal_comma.
      destruct Ht as [Ht|Ht]; [vm_compute in Ht; discriminate Ht | exact Ht]. }
    destruct (N.eq_dec a 45) as [->|H45].
    { apply parse_unsigned_decimal_comma.
      destruct Ht as [Ht|Ht]; [vm_compute in Ht; discriminate Ht | exact Ht]. }
    pose proof (parse_unsigned_decimal_comma false (a :: t) Ht) as Hx.
    destruct a as [|p]; [exact Hx|].
    do 6 (destruct p as [p|p|]; try congruence; try exact Hx).
Qed.

(** X3. A string with a comma anywhere in it is no number for
    [toNumber], which gives the fallback; so an accepted form whose price
    is typed with a decimal comma is sent with price 0. *)
Theorem toNumber_comma_falls_back :
  (forall (s : js_string) (f : option number),
      In comma s -> toNumber (VString s) f = default_arg pos_zero f)
  /\ (forall (salon input data : JsValue) (s : js_string),
         Zod.safeParse serviceSchema input = Zod.Success data ->
         Js.get input (lit "price") = VString s ->
         In comma s ->
         Js.get (cleaned salon data) (lit "price") = VNumber pos_zero).
Proof.
  assert (A : forall (s : js_string) (f : option number),
             In comma s -> toNumber (VString s) f = default_arg pos_zero f).
  { intros s f Hin. unfold toNumber, Js.Number.
    rewrite (StringToNumber_comma (Js.trim s)); [reflexivity|].
    now apply trim_keeps. }
  split; [exact A|].
  intros salon input data s H Hp Hin.
  destruct (serviceSchema_success _ _ H) as (_ & _ & _ & Hprice & _).
  change (Js.get (cleaned salon data) (lit "price"))
    with (VNumber (toNumber (Js.get data (lit "price")) None)).
  rewrite Hprice, Hp. f_equal. now apply A.
Qed.

(** ** The schema, completely *)

Lemma object_fields_abort p props shape :
  (forall k schema, In (k, schema) shape -> aborts_with_issue schema) ->
  fst (Zod.object_fields shape p props) = [] ->
  snd (Zod.object_fields shape p props) <> None.
Proof.
  induction shape as [|[k0 s0] shape IH]; cbn [Zod.object_fields]; intros Hs.
  - discriminate.
  - destruct (Zod.object_fields shape p props) as [rest o] eqn:E. cbn [fst snd] in *.
    intros Hi. apply app_eq_nil in Hi as [Hi Hr].
    unfold Zod.field_result in *.
    pose proof (Hs k0 s0 (or_introl eq_refl) _ _ Hi) as Hv.
    assert (Ho : o <> None) by (apply IH; [intros; eapply Hs; right; eauto | exact Hr]).
    destruct (Zod.value (s0 _ _)); [|contradiction].
    destruct o; [discriminate | contradiction].
Qed.

Lemma array_items_abort p items : forall i,
  fst (Zod.array_items Zod.z_string p i items) = [] ->
  snd (Zod.array_items Zod.z_string p i items) <> None.
Proof.
  induction items as [|x items IH]; intros i; cbn [Zod.array_items].
  - discriminate.
  - destruct (Zod.array_items Zod.z_string p (S i) items) as [rest o] eqn:E.
    specialize (IH (S i)). rewrite E in IH. cbn [fst snd] in *.
    rewrite z_string_cases. destruct (is_string x); cbn.
    + intros Hr. destruct o; [discriminate | now apply IH].
    + discriminate.
Qed.

Lemma serviceShape_aborts_with_issue k schema :
  In (k, schema) serviceShape -> aborts_with_issue schema.
Proof.
  intros Hin p d.
  repeat (destruct Hin as [Hin|Hin]; [injection Hin as <- <-|]); [..|destruct Hin];
    try (destruct d as [| | | n | [|c s] | |]; try destruct n; cbn; congruence).
  (* tags *)
  destruct d as [| | | n | | items |]; try destruct n; cbn; try congruence.
  pose proof (array_items_abort p items 0%nat) as H.
  destruct (Zod.array_items Zod.z_string p 0 items) as [found o]. cbn in *.
  intros Hf. specialize (H Hf). destruct o; [discriminate | contradiction].
Qed.

(** X4. [serviceSchema] accepts exactly the well-formed inputs: objects
    with a non-empty name, a price and a duration that are each a string or
    a number other than NaN, and optional fields absent or of their declared
    type; every other input is refused with at least one issue. *)
Theorem serviceSchema_accepts_exactly (input : JsValue) :
  (well_formed input = true ->
   exists data, Zod.safeParse serviceSchema input = Zod.Success data)
  /\ (well_formed input = false ->
      exists errors,
        Zod.safeParse serviceSchema input = Zod.Failure errors /\ errors <> []).
Proof.
  split.
  - apply well_formed_accepted.
  - intros Hwf. unfold Zod.safeParse.
    destruct (Zod.issues (serviceSchema [] input)) as [|i found] eqn:Ei.
    + exfalso.
      assert (Hv : Zod.value (serviceSchema [] input) <> None).
      { destruct input as [| | | n | | | props]; try destruct n; try discriminate Ei.
        unfold serviceSchema, Zod.object in *.
        pose proof (object_fields_abort [] props serviceShape
                      serviceShape_aborts_with_issue) as H.
        destruct (Zod.object_fields serviceShape [] props) as [found o].
        cbn in *. specialize (H Ei). destruct o; [discriminate | contradiction]. }
      destruct (Zod.value (serviceSchema [] input)) as [v|] eqn:Ev; [|contradiction].
      assert (Hacc : accepted input).
      { exists v. unfold Zod.safeParse. now rewrite Ei, Ev. }
      apply serviceSchema_accepts_iff in Hacc. congruence.
    + eexists. split; [reflexivity | discriminate].
Qed.

(** ** The payload of an accepted form *)

Lemma toNumber_not_NaN (v : JsValue) (f : option number) :
  match v with VNumber n => Js.isNaN n | _ => false end = false ->
  Js.isNaN (default_arg pos_zero f) = false ->
  Js.isNaN (toNumber v f) = false.
Proof.
  intros Hv Hf. unfold toNumber. destruct v; trivial.
  destruct (Js.isFinite (Js.Number (Js.trim s))) eqn:E; trivial.
  now destruct (Js.Number (Js.trim s)).
Qed.

Lemma number_or_string_not_NaN (P : JsValue) :
  absent_or number_or_string P = true ->
  match P with VNumber n => Js.isNaN n | _ => false end = false.
Proof. destruct P; trivial. simpl. now intros ->%negb_true_iff. Qed.

Lemma cleaned_numbers_not_NaN (salon input data : JsValue) :
  Zod.safeParse serviceSchema input = Zod.Success data ->
  Js.isNaN (toNumber (Js.get data (lit "price")) None) = false
  /\ Js.isNaN (toNumber (Js.get data (lit "duration")) None) = false
  /\ Js.isNaN (toNumber (Js.get data (lit "breakBefore")) (Some pos_zero)) = false
  /\ Js.isNaN (toNumber (Js.get data (lit "breakAfter")) (Some pos_zero)) = false.
Proof.
  intros H.
  destruct (serviceSchema_success _ _ H)
    as (Hwf & _ & _ & Hprice & Hdur & Hbb & Hba & _).
  destruct input as [| | | | | | props]; try discriminate Hwf.
  unfold well_formed in Hwf.
  repeat (apply andb_true_iff in Hwf as [Hwf ?]).
  rewrite Hprice, Hdur, Hbb, Hba.
  repeat split; (apply toNumber_not_NaN; [|reflexivity]);
    apply number_or_string_not_NaN; trivial.
  - destruct (Js.get (VObject props) (lit "price")); trivial; discriminate.
  - destruct (Js.get (VObject props) (lit "duration")); trivial; discriminate.
Qed.

Lemma well_formed_cleaned (salon input data : JsValue) :
  Zod.safeParse serviceSchema input = Zod.Success data ->
  well_formed (cleaned salon data) = true.
Proof.
  intros H.
  destruct (cleaned_numbers_not_NaN salon input data H) as (Np & Nd & Nb & Na).
  destruct (serviceSchema_success _ _ H)
    as (Hwf & Hname & Hdesc & _ & _ & _ & _ & Htags & _).
  destruct input as [| | | | | | props]; try discriminate Hwf.
  unfold well_formed in Hwf.
  repeat (apply andb_true_iff in Hwf as [Hwf ?]).
  change (well_formed (cleaned salon data))
    with (nonempty_string (Js.get data (lit "name"))
          && absent_or is_string
               (Js.coalesce (Js.get data (lit "description")) (VString (lit "")))
          && negb (Js.isNaN (toNumber (Js.get data (lit "price")) None))
          && negb (Js.isNaN (toNumber (Js.get data (lit "duration")) None))
          && negb (Js.isNaN (toNumber (Js.get data (lit "breakBefore")) (Some pos_zero)))
          && negb (Js.isNaN (toNumber (Js.get data (lit "breakAfter")) (Some pos_zero)))
          && absent_or string_array
               (if Js.isArray (Js.get data (lit "tags"))
                then Js.get data (lit "tags") else VArray [])
          && true).
  rewrite Np, Nd, Nb, Na, Hname, Hdesc, Htags. cbn [negb].
  repeat (apply andb_true_iff; split); trivial.
  - destruct (Js.get (VObject props) (lit "description")); trivial; discriminate.
  - destruct (Js.get (VObject props) (lit "tags")); trivial; discriminate.
Qed.

(** X6. The payload assembled from an accepted form is itself accepted by
    [serviceSchema], and none of its four numeric fields is NaN. *)
Theorem payload_is_well_formed (salon input data : JsValue) :
  Zod.safeParse serviceSchema input = Zod.Success data ->
  accepted (cleaned salon data)
  /\ (forall k, In k numeric_fields ->
        exists n, Js.get (cleaned salon data) k = VNumber n /\ Js.isNaN n = false).
Proof.
  intros H. split.
  - apply well_formed_accepted. now apply (well_formed_cleaned salon input).
  - destruct (cleaned_numbers_not_NaN salon input data H) as (Np & Nd & Nb & Na).
    intros k Hk. simpl in Hk.
    destruct Hk as [<-|[<-|[<-|[<-|[]]]]]; eexists; (split; [reflexivity|]); assumption.
Qed.

(** ** Loading a service into the form *)

(** The payload read from the values a parse gives for [form]. *)
Lemma cleaned_of_parsed (salon form data : JsValue) :
  Zod.safeParse serviceSchema form = Zod.Success data ->
  cleaned salon data = cleaned salon form.
Proof.
  intros H.
  destruct (serviceSchema_success _ _ H)
    as (_ & Hname & Hdesc & Hprice & Hdur & Hbb & Hba & Htags & Hdep).
  unfold cleaned. rewrite Hname, Hdesc, Hprice, Hdur, Hbb, Hba, Htags, Hdep.
  destruct (Js.get form (lit "description")); reflexivity.
Qed.

Lemma cleaned_editValues_cleaned (salon data : JsValue) :
  Js.nullish (Js.get data (lit "name")) = false ->
  cleaned salon (editValues (cleaned salon data)) = cleaned salon data.
Proof.
  intros Hname. unfold cleaned at 1.
  change (Js.get (editValues (cleaned salon data)) (lit "name"))
    with (Js.coalesce (Js.get data (lit "name")) (str "")).
  change (Js.get (editValues (cleaned salon data)) (lit "description"))
    with (Js.coalesce
            (Js.coalesce (Js.get data (lit "description")) (VString (lit ""))) (str "")).
  change (Js.get (editValues (cleaned salon data)) (lit "price"))
    with (VNumber (toNumber (Js.get data (lit "price")) None)).
  change (Js.get (editValues (cleaned salon data)) (lit "duration"))
    with (VNumber (toNumber (Js.get data (lit "duration")) None)).
  change (Js.get (editValues (cleaned salon data)) (lit "breakBefore"))
    with (VNumber (toNumber (Js.get data (lit "breakBefore")) (Some pos_zero))).
  change (Js.get (editValues (cleaned salon data)) (lit "breakAfter"))
    with (VNumber (toNumber (Js.get data (lit "breakAfter")) (Some pos_zero))).
  change (Js.get (editValues (cleaned salon data)) (lit "depositRequired"))
    with (VBool (Js.truthy
                   (VBool (toBool (Js.get data (lit "depositRequired")) (Some false))))).
  change (Js.get (editValues (cleaned salon data)) (lit "tags"))
    with (if Js.isArray
               (if Js.isArray (Js.get data (lit "tags"))
                then Js.get data (lit "tags") else VArray [])
          then (if Js.isArray (Js.get data (lit "tags"))
                then Js.get data (lit "tags") else VArray [])
          else VArray []).
  unfold cleaned.
  destruct (Js.get data (lit "name")); try discriminate Hname;
    destruct (Js.get data (lit "description")), (Js.get data (lit "tags"));
    reflexivity.
Qed.

Lemma well_formed_editValues (s : JsValue) :
  well_formed s = true -> well_formed (editValues s) = true.
Proof.
  destruct s as [| | | | | | props]; try discriminate.
  unfold well_formed at 1. intros H.
  repeat (apply andb_true_iff in H as [H ?]).
  set (vname := Js.get (VObject props) (lit "name")) in *.
  set (vdesc := Js.get (VObject props) (lit "description")) in *.
  set (vprice := Js.get (VObject props) (lit "price")) in *.
  set (vdur := Js.get (VObject props) (lit "duration")) in *.
  set (vbb := Js.get (VObject props) (lit "breakBefore")) in *.
  set (vba := Js.get (VObject props) (lit "breakAfter")) in *.
  set (vtags := Js.get (VObject props) (lit "tags")) in *.
  set (vdep := Js.get (VObject props) (lit "depositRequired")) in *.
  change (well_formed (editValues (VObject props)))
    with (nonempty_string (Js.coalesce vname (str ""))
          && absent_or is_string (Js.coalesce vdesc (str ""))
          && number_or_string (Js.coalesce vprice (num 0))
          && number_or_string (Js.coalesce vdur (num 30))
          && absent_or number_or_string (Js.coalesce vbb (num 0))
          && absent_or number_or_string (Js.coalesce vba (num 0))
          && absent_or string_array (if Js.isArray vtags then vtags else VArray [])
          && true).
  clearbody vname vdesc vprice vdur vbb vba vtags vdep.
  repeat (apply andb_true_iff; split); trivial.
  - destruct vname; trivial; discriminate.
  - destruct vdesc; trivial; discriminate.
  - destruct vprice; trivial; discriminate.
  - destruct vdur; trivial; discriminate.
  - destruct vbb; trivial; discriminate.
  - destruct vba; trivial; discriminate.
  - destruct vtags; trivial; discriminate.
Qed.

(** X7. A payload loaded into the form by "Modifier" and submitted as it
    is gives the same payload again: the loaded values are accepted, and
    the payload assembled from them is the one loaded. *)
Theorem edit_round_trip (salon input data : JsValue) :
  Zod.safeParse serviceSchema input = Zod.Success data ->
  exists data',
    Zod.safeParse serviceSchema (editValues (cleaned salon data)) = Zod.Success data'
    /\ cleaned salon data' = cleaned salon data.
Proof.
  intros H.
  assert (Hname : Js.nullish (Js.get data (lit "name")) = false).
  { destruct (serviceSchema_success _ _ H) as (Hwf & Hn & _).
    destruct input; try discriminate Hwf. unfold well_formed in Hwf.
    repeat (apply andb_true_iff in Hwf as [Hwf ?]).
    rewrite Hn. destruct (Js.get _ (lit "name")); trivial; discriminate. }
  destruct (well_formed_accepted (editValues (cleaned salon data))) as [data' Hd'].
  { apply well_formed_editValues. eapply well_formed_cleaned; eauto. }
  exists data'. split; [exact Hd'|].
  rewrite (cleaned_of_parsed _ _ _ Hd'). now apply cleaned_editValues_cleaned.
Qed.

(** X8. The payload sent for a service [s] loaded by "Modifier" and
    submitted unchanged, field by field: a missing or null name,
    description, price, duration or break is replaced by "", "", 0, 30
    and 0; tags that are no array by []; and depositRequired is
    [Boolean(s.depositRequired)], so a stored non-empty string, "false"
    included, is sent as true although [toBool] of a string other than
    "true" is false. *)
Theorem modifier_payload (salon s data : JsValue) :
  Zod.safeParse serviceSchema (editValues s) = Zod.Success data ->
  let payload := cleaned salon data in
  Js.get payload (lit "name") = Js.coalesce (Js.get s (lit "name")) (str "")
  /\ Js.get payload (lit "description")
     = Js.coalesce (Js.get s (lit "description")) (str "")
  /\ Js.get payload (lit "price")
     = VNumber (toNumber (Js.coalesce (Js.get s (lit "price")) (num 0)) None)
  /\ Js.get payload (lit "duration")
     = VNumber (toNumber (Js.coalesce (Js.get s (lit "duration")) (num 30)) None)
  /\ Js.get payload (lit "breakBefore")
     = VNumber (toNumber (Js.coalesce (Js.get s (lit "breakBefore")) (num 0))
                  (Some pos_zero))
  /\ Js.get payload (lit "breakAfter")
     = VNumber (toNumber (Js.coalesce (Js.get s (lit "breakAfter")) (num 0))
                  (Some pos_zero))
  /\ Js.get payload (lit "tags")
     = (if Js.isArray (Js.get s (lit "tags")) then Js.get s (lit "tags") else VArray [])
  /\ Js.get payload (lit "depositRequired")
     = VBool (Js.truthy (Js.get s (lit "depositRequired")))
  /\ (forall t, Js.get s (lit "depositRequired") = VString t -> t <> [] ->
        Js.get payload (lit "depositRequired") = VBool true)
  /\ (forall t, Js.get s (lit "depositRequired") = VString t -> t <> [] ->
        t <> lit "true" ->
        toBool (Js.get s (lit "depositRequired")) (Some false) = false).
Proof.
  intros H payload. subst payload.
  rewrite (cleaned_of_parsed _ _ _ H).
  repeat split.
  - change (Js.get (cleaned salon (editValues s)) (lit "description"))
      with (Js.coalesce (Js.coalesce (Js.get s (lit "description")) (str ""))
              (VString (lit ""))).
    destruct (Js.get s (lit "description")); reflexivity.
  - change (Js.get (cleaned salon (editValues s)) (lit "tags"))
      with (if Js.isArray
                 (if Js.isArray (Js.get s (lit "tags"))
                  then Js.get s (lit "tags") else VArray [])
            then (if Js.isArray (Js.get s (lit "tags"))
                  then Js.get s (lit "tags") else VArray [])
            else VArray []).
    destruct (Js.get s (lit "tags")); reflexivity.
  - intros t Ht Hne.
    change (Js.get (cleaned salon (editValues s)) (lit "depositRequired"))
      with (VBool (Js.truthy (Js.get s (lit "depositRequired")))).
    rewrite Ht. destruct t; [contradiction | reflexivity].
  - intros t Ht _ Hne. rewrite Ht. simpl. now apply js_string_eqb_neq.
Qed.

Section PageBehaviour.

Context {platform : Platform}.

(** What one submission can send. *)
Lemma submit_effects (st : PageState) (e : Effect) :
  In e (snd (dispatch st SubmitForm)) ->
  exists data,
    Zod.safeParse serviceSchema (formValues st) = Zod.Success data
    /\ createPending st = false /\ updatePending st = false
    /\ e = if Js.truthy (editing st)
           then ApiRequest (lit "PUT")
                  (lit "/api/services/" ++ ToString (Js.get (editing st) (lit "id")))
                  (cleaned (salon st) data)
           else ApiRequest (lit "POST") (lit "/api/services") (cleaned (salon st) data).
Proof.
  cbn [dispatch submitButton disabled].
  destruct (createPending st) eqn:C, (updatePending st) eqn:U; cbn [orb];
    try (intros []).
  unfold handleSubmit.
  destruct (Zod.safeParse serviceSchema (formValues st)) as [data|errors];
    [|intros []].
  unfold onSubmit.
  change (editing (form_setValues (formValues st) [] st)) with (editing st).
  change (salon (form_setValues (formValues st) [] st)) with (salon st).
  destruct (Js.truthy (editing st)); (intros [<-|[]]); exists data; repeat split.
Qed.

Lemma run_fieldChanges_submit (cs : list (js_string * JsValue)) :
  forall st, exists st',
    snd (run st (fieldChanges cs ++ [SubmitForm])) = snd (dispatch st' SubmitForm)
    /\ editing st' = editing st /\ salon st' = salon st.
Proof.
  induction cs as [|[name v] cs IH]; intros st.
  - exists st. cbn [fieldChanges List.map app run].
    destruct (dispatch st SubmitForm) as [st1 e1]. cbn. now rewrite app_nil_r.
  - cbn [fieldChanges List.map app run dispatch fst snd].
    destruct (IH (form_setValues (set_field (formValues st) name v) (formErrors st) st))
      as (st' & Hrun & He & Hs).
    exists st'. fold (fieldChanges cs).
    destruct (run _ (fieldChanges cs ++ [SubmitForm])) as [st2 e2].
    cbn in *. auto.
Qed.

(** X10. After "Ajouter un service", whatever is typed into the form, a
    submission sends nothing but a POST to /api/services; after "Modifier"
    on a service [s], nothing but a PUT to /api/services/<s.id>. *)
Theorem submit_routing (st : PageState) (cs : list (js_string * JsValue)) :
  (forall e,
      In e (snd (run st (ClickAjouter :: fieldChanges cs ++ [SubmitForm]))) ->
      exists payload, e = ApiRequest (lit "POST") (lit "/api/services") payload)
  /\ (forall s e,
         Js.truthy s = true ->
         In e (snd (run st (ClickModifier s :: fieldChanges cs ++ [SubmitForm]))) ->
         exists payload,
           e = ApiRequest (lit "PUT")
                 (lit "/api/services/" ++ ToString (Js.get s (lit "id"))) payload).
Proof.
  split.
  - intros e. cbn [run dispatch].
    set (st1 := setIsDialogOpen _ _).
    destruct (run_fieldChanges_submit cs st1) as (st' & Hrun & He & _).
    destruct (run st1 (fieldChanges cs ++ [SubmitForm])) as [st2 e2].
    cbn [fst snd app] in *. rewrite Hrun. intros Hin.
    destruct (submit_effects st' e Hin) as (data & _ & _ & _ & ->).
    rewrite He. cbn. eauto.
  - intros s e Hs. cbn [run dispatch].
    set (st1 := setIsDialogOpen _ _).
    destruct (run_fieldChanges_submit cs st1) as (st' & Hrun & He & _).
    destruct (run st1 (fieldChanges cs ++ [SubmitForm])) as [st2 e2].
    cbn [fst snd app] in *. rewrite Hrun. intros Hin.
    destruct (submit_effects st' e Hin) as (data & _ & _ & _ & ->).
    rewrite He. cbn. rewrite Hs. eauto.
Qed.

(** X11. The dialog's title tells what a submission does: a request sent
    under the title "Modifier un service" is a PUT, one sent under
    "Ajouter un service" is a POST to /api/services. *)
Theorem dialog_title_matches_request (st : PageState) (method url body : _) :
  In (ApiRequest method url body) (snd (dispatch st SubmitForm)) ->
  (dialogTitle st = lit "Modifier un service" /\ method = lit "PUT")
  \/ (dialogTitle st = lit "Ajouter un service"
      /\ method = lit "POST" /\ url = lit "/api/services").
Proof.
  intros Hin. destruct (submit_effects st _ Hin) as (data & _ & _ & _ & He).
  unfold dialogTitle. destruct (Js.truthy (editing st)); injection He as -> -> ->.
  - left. split; reflexivity.
  - right. repeat split.
Qed.

(** X12. With no mutation pending, "Modifier" on a service [s] followed
    by a submission sends exactly one request when the loaded values are
    accepted, a PUT to /api/services/<s.id> with the payload assembled from
    them, marks the update pending and leaves the dialog open; when they are
    refused it sends nothing and records the issues. *)
Theorem modifier_then_submit (st : PageState) (s : JsValue) :
  createPending st = false -> updatePending st = false ->
  Js.truthy s = true ->
  (forall data,
      Zod.safeParse serviceSchema (editValues s) = Zod.Success data ->
      snd (run st [ClickModifier s; SubmitForm])
      = [ApiRequest (lit "PUT")
           (lit "/api/services/" ++ ToString (Js.get s (lit "id")))
           (cleaned (salon st) data)]
      /\ updatePending (fst (run st [ClickModifier s; SubmitForm])) = true
      /\ createPending (fst (run st [ClickModifier s; SubmitForm])) = false
      /\ isDialogOpen (fst (run st [ClickModifier s; SubmitForm])) = true)
  /\ (forall errors,
         Zod.safeParse serviceSchema (editValues s) = Zod.Failure errors ->
         snd (run st [ClickModifier s; SubmitForm]) = []
         /\ formErrors (fst (run st [ClickModifier s; SubmitForm])) = errors
         /\ updatePending (fst (run st [ClickModifier s; SubmitForm])) = false).
Proof.
  intros C U Hs.
  cbn [run dispatch submitButton disabled].
  change (createPending (setIsDialogOpen true
            (form_reset (Some (editValues s)) (setEditing s st))))
    with (createPending st).
  change (updatePending (setIsDialogOpen true
            (form_reset (Some (editValues s)) (setEditing s st))))
    with (updatePending st).
  rewrite C, U. cbn [orb]. unfold handleSubmit.
  change (formValues (setIsDialogOpen true
            (form_reset (Some (editValues s)) (setEditing s st))))
    with (editValues s).
  split.
  - intros data H. rewrite H. unfold onSubmit.
    change (editing (form_setValues ?v ?e (setIsDialogOpen true
              (form_reset (Some (editValues s)) (setEditing s st)))))
      with s.
    rewrite Hs. cbn. rewrite C. auto.
  - intros errors H. rewrite H. cbn. rewrite U. auto.
Qed.

(** X13. A refused submission can be retried: after the error toast the
    page is back in the state it was in after the first submission once
    submitted again, and the second submission sends the same request as
    the first. *)
Theorem refused_then_retry (st : PageState) (res : Response) (data : JsValue) :
  createPending st = false -> updatePending st = false ->
  ok res = false ->
  Zod.safeParse serviceSchema (formValues st) = Zod.Success data ->
  let first := dispatch st SubmitForm in
  (Js.truthy (editing st) = false ->
   run st [SubmitForm; CreateSettled (ApiReturns res); SubmitForm]
   = (fst first,
      snd first
        ++ ShowToast (onApiError res)
           :: (if isUnauthorizedError (new_Error (lit "create failed"))
               then unauthorized_effects else [])
        ++ snd first))
  /\ (Js.truthy (editing st) = true ->
      run st [SubmitForm; UpdateSettled (ApiReturns res); SubmitForm]
      = (fst first,
         snd first
           ++ ShowToast (onApiError res)
              :: (if isUnauthorizedError (new_Error (lit "update failed"))
                  then unauthorized_effects else [])
           ++ snd first)).
Proof.
  intros C U Hok H first. subst first.
  destruct st as [dlg ed sal svc fv fd fe cp up].
  cbn [createPending updatePending formValues editing] in *. subst cp up.
  split; intros He;
    cbn -[Zod.safeParse cleaned unauthorized_effects onApiError];
    unfold handleSubmit; cbn -[Zod.safeParse cleaned unauthorized_effects onApiError];
    rewrite H; unfold onSubmit;
    cbn -[Zod.safeParse cleaned unauthorized_effects onApiError];
    rewrite He; cbn -[Zod.safeParse cleaned unauthorized_effects onApiError];
    unfold createServiceMutation_resume, updateServiceMutation_resume;
    rewrite Hok; cbn -[Zod.safeParse cleaned unauthorized_effects onApiError];
    destruct (isUnauthorizedError _);
    cbn -[Zod.safeParse cleaned unauthorized_effects onApiError];
    unfold handleSubmit; cbn -[Zod.safeParse cleaned unauthorized_effects onApiError];
    rewrite H; unfold onSubmit;
    cbn -[Zod.safeParse cleaned unauthorized_effects onApiError];
    rewrite He; rewrite ?app_nil_r; reflexivity.
Qed.


End PageBehaviour.

(** X9. A service that [serviceSchema] accepts loads into a form that is
    accepted too; a service whose name is missing or null loads an empty
    name and is refused with "Nom requis". *)
Theorem stored_service_loads (s : JsValue) :
  (accepted s -> accepted (editValues s))
  /\ (Js.nullish (Js.get s (lit "name")) = true ->
      exists errors,
        Zod.safeParse serviceSchema (editValues s) = Zod.Failure errors
        /\ In nom_requis errors).
Proof.
  split.
  - intros H. apply well_formed_accepted, well_formed_editValues.
    now apply serviceSchema_accepts_iff.
  - intros Hn.
    destruct (empty_name_issue (editValues s)) as [H1 H2].
    { change (Js.get (editValues s) (lit "name"))
        with (Js.coalesce (Js.get s (lit "name")) (str "")).
      unfold Js.coalesce. now rewrite Hn. }
    eauto.
Qed.

Lemma get_outside_shape (input data : JsValue) (k : js_string) :
  Zod.safeParse serviceSchema input = Zod.Success data ->
  ~ In k (List.map fst serviceShape) ->
  Js.get data k = VUndefined.
Proof.
  intros H Hk. apply safeParse_success in H.
  destruct input as [| | | n | | | props]; try destruct n; try discriminate H.
  unfold serviceSchema, Zod.object in H.
  destruct (Zod.object_fields serviceShape [] props) as [found out] eqn:E.
  injection H as -> Ho. destruct out as [o|]; [|discriminate Ho].
  injection Ho as <-. simpl.
  rewrite (lookup_not_key k o); [reflexivity|].
  intros Hin. apply Hk. eapply object_fields_keys; eauto.
Qed.

(** X5. The value [serviceSchema] parses an input to carries no property
    outside the eight of the schema, and parsing it again is accepted and
    changes no property. *)
Theorem serviceSchema_normalizes (input data : JsValue) :
  Zod.safeParse serviceSchema input = Zod.Success data ->
  (forall k, ~ In k (List.map fst serviceShape) -> Js.get data k = VUndefined)
  /\ exists data',
       Zod.safeParse serviceSchema data = Zod.Success data'
       /\ forall k, Js.get data' k = Js.get data k.
Proof.
  intros H. split; [intros k Hk; exact (get_outside_shape input data k H Hk)|].
  destruct (serviceSchema_success _ _ H)
    as (Hwf & Hname & Hdesc & Hprice & Hdur & Hbb & Hba & Htags & Hdep).
  assert (Hobj : exists o, data = VObject o).
  { apply safeParse_success in H.
    destruct input as [| | | n | | | props]; try destruct n; try discriminate H.
    unfold serviceSchema, Zod.object in H.
    destruct (Zod.object_fields serviceShape [] props) as [found out].
    injection H as _ Ho. destruct out as [o|]; [|discriminate Ho].
    injection Ho as <-. eauto. }
  destruct Hobj as [o ->].
  destruct (well_formed_accepted (VObject o)) as [data' Hd'].
  { destruct input as [| | | | | | props]; try discriminate Hwf.
    unfold well_formed in *.
    rewrite Hname, Hdesc, Hprice, Hdur, Hbb, Hba, Htags, Hdep.
    repeat (apply andb_true_iff in Hwf as [Hwf ?]).
    repeat (apply andb_true_iff; split); trivial.
    destruct (Js.get (VObject props) (lit "description")); trivial; discriminate. }
  exists data'. split; [exact Hd'|].
  intros k.
  destruct (serviceSchema_success _ _ Hd')
    as (_ & Gname & Gdesc & Gprice & Gdur & Gbb & Gba & Gtags & Gdep).
  destruct (in_dec (list_eq_dec N.eq_dec) k (List.map fst serviceShape)) as [Hin|Hout].
  - cbn [List.map fst serviceShape] in Hin.
    repeat (destruct Hin as [<-|Hin]; [try assumption|]); [|destruct Hin].
    rewrite Gdesc, Hdesc.
    destruct (Js.get input (lit "description")); reflexivity.
  - rewrite (get_outside_shape _ _ k Hd' Hout).
    symmetry. now apply (get_outside_shape input).
Qed.

Section PageOutcomes.

Context {platform : Platform}.

(** X15. The error toast never has an empty description: it shows the
    derived message when that is truthy and
    "Impossible de créer le service." otherwise. *)
Theorem error_toast_never_empty (res : Response) :
  Js.truthy (description (onApiError res)) = true
  /\ (Js.truthy (apiErrorMessage res) = true ->
      description (onApiError res) = apiErrorMessage res)
  /\ (Js.truthy (apiErrorMessage res) = false ->
      description (onApiError res) = str "Impossible de créer le service.").
Proof.
  unfold onApiError, Js.or. cbn [description].
  destruct (Js.truthy (apiErrorMessage res)) eqn:E; repeat split; congruence.
Qed.



End PageOutcomes.

(** * The further properties at concrete inputs *)

Lemma toNumber_ignores_surrounding_white_space_witness :
  toNumber (VString (lit "  " ++ lit "12.5" ++ lit " ")) None
  = toNumber (str "12.5") None.
Proof.
  apply (toNumber_ignores_surrounding_white_space (lit "  ") (lit "12.5") (lit " "));
    reflexivity.
Defined.

Lemma toNumber_blank_is_zero_witness :
  toNumber (str "   ") (Some (number_of_Z 7)) = pos_zero.
Proof. apply toNumber_blank_is_zero. reflexivity. Defined.

Lemma toNumber_comma_falls_back_witness :
  toNumber (str "12,50") (Some (number_of_Z 7)) = number_of_Z 7
  /\ exists data,
       Zod.safeParse serviceSchema form_comma_price = Zod.Success data
       /\ Js.get (cleaned salon_1 data) (lit "price") = VNumber pos_zero.
Proof.
  destruct toNumber_comma_falls_back as [Hs Hp].
  assert (Hin : In comma (lit "12,50")) by (right; right; left; reflexivity).
  split.
  - apply (Hs (lit "12,50") (Some (number_of_Z 7))). exact Hin.
  - eexists. split; [reflexivity|].
    eapply (Hp salon_1 form_comma_price); [reflexivity | reflexivity | exact Hin].
Defined.

Lemma serviceSchema_accepts_exactly_witness :
  (exists data, Zod.safeParse serviceSchema form_coupe = Zod.Success data)
  /\ (exists errors,
        Zod.safeParse serviceSchema form_bad_tags = Zod.Failure errors /\ errors <> []).
Proof.
  split.
  - apply (serviceSchema_accepts_exactly form_coupe). reflexivity.
  - apply (serviceSchema_accepts_exactly form_bad_tags). reflexivity.
Defined.

Lemma serviceSchema_normalizes_witness :
  exists data,
    Zod.safeParse serviceSchema service_stored = Zod.Success data
    /\ Js.get data (lit "id") = VUndefined
    /\ exists data',
         Zod.safeParse serviceSchema data = Zod.Success data'
         /\ forall k, Js.get data' k = Js.get data k.
Proof.
  eexists. split; [reflexivity|].
  destruct (serviceSchema_normalizes service_stored _ eq_refl) as [Hout Hagain].
  split; [|exact Hagain].
  apply Hout. vm_compute. intuition discriminate.
Defined.

Lemma payload_is_well_formed_witness :
  accepted (cleaned salon_1 form_coupe)
  /\ exists n,
       Js.get (cleaned salon_1 form_coupe) (lit "price") = VNumber n
       /\ Js.isNaN n = false.
Proof.
  destruct (payload_is_well_formed salon_1 form_coupe form_coupe eq_refl) as [Hacc Hnum].
  split; [exact Hacc|]. apply Hnum. left. reflexivity.
Defined.

Lemma edit_round_trip_witness :
  exists data',
    Zod.safeParse serviceSchema (editValues (cleaned salon_1 form_coupe))
    = Zod.Success data'
    /\ cleaned salon_1 data' = cleaned salon_1 form_coupe.
Proof. apply (edit_round_trip salon_1 form_coupe form_coupe). reflexivity. Defined.

Lemma modifier_payload_witness :
  exists data,
    Zod.safeParse serviceSchema (editValues service_stored) = Zod.Success data
    /\ Js.get (cleaned salon_1 data) (lit "duration") = num 30
    /\ Js.get (cleaned salon_1 data) (lit "tags") = VArray []
    /\ Js.get (cleaned salon_1 data) (lit "depositRequired") = VBool true
    /\ toBool (Js.get service_stored (lit "depositRequired")) (Some false) = false.
Proof.
  eexists. split; [reflexivity|].
  destruct (modifier_payload salon_1 service_stored _ eq_refl)
    as (_ & _ & _ & Hdur & _ & _ & Htags & _ & Hdep & Hbool).
  split; [exact Hdur|]. split; [exact Htags|]. split.
  - apply (Hdep (lit "false")); [reflexivity | discriminate].
  - apply (Hbool (lit "false")); [reflexivity | discriminate | discriminate].
Defined.

Lemma stored_service_loads_witness :
  accepted (editValues form_coupe)
  /\ exists errors,
       Zod.safeParse serviceSchema (editValues (VObject [])) = Zod.Failure errors
       /\ In nom_requis errors.
Proof.
  split.
  - apply (stored_service_loads form_coupe). exists form_coupe. reflexivity.
  - apply (stored_service_loads (VObject [])). reflexivity.
Defined.

Lemma submit_routing_witness :
  (exists payload,
      ApiRequest (lit "POST") (lit "/api/services")
        (cleaned salon_1 (set_field defaultValues (lit "name") (str "Barbe")))
      = ApiRequest (lit "POST") (lit "/api/services") payload)
  /\ (exists payload,
         ApiRequest (lit "PUT") (lit "/api/services/svc-1")
           (cleaned salon_1
              (set_field (editValues service_stored) (lit "price") (str "50")))
         = ApiRequest (lit "PUT")
             (lit "/api/services/"
                ++ ToString (Platform := examplePlatform)
                     (Js.get service_stored (lit "id")))
             payload).
Proof.
  destruct (submit_routing (platform := examplePlatform) state_loaded
              [(lit "name", str "Barbe")]) as [Hadd _].
  destruct (submit_routing (platform := examplePlatform) state_loaded
              [(lit "price", str "50")]) as [_ Hedit].
  split.
  - apply Hadd. left. reflexivity.
  - apply (Hedit service_stored); [reflexivity|]. left. reflexivity.
Defined.

Lemma dialog_title_matches_request_witness :
  (dialogTitle (setEditing service_stored state_filled) = lit "Modifier un service"
   /\ lit "PUT" = lit "PUT")
  \/ (dialogTitle (setEditing service_stored state_filled) = lit "Ajouter un service"
      /\ lit "PUT" = lit "POST" /\ lit "/api/services/svc-1" = lit "/api/services").
Proof.
  apply (dialog_title_matches_request (platform := examplePlatform)
           (setEditing service_stored state_filled)
           (lit "PUT") (lit "/api/services/svc-1") (cleaned salon_1 form_coupe)).
  left. reflexivity.
Defined.

Lemma modifier_then_submit_witness :
  exists data,
    Zod.safeParse serviceSchema (editValues service_stored) = Zod.Success data
    /\ snd (run (platform := examplePlatform) state_loaded
              [ClickModifier service_stored; SubmitForm])
       = [ApiRequest (lit "PUT") (lit "/api/services/svc-1") (cleaned salon_1 data)].
Proof.
  eexists. split; [reflexivity|].
  destruct (modifier_then_submit (platform := examplePlatform) state_loaded
              service_stored eq_refl eq_refl eq_refl) as [Hok _].
  apply Hok. reflexivity.
Defined.

Lemma refused_then_retry_witness :
  snd (run (platform := examplePlatform) state_filled
         [SubmitForm; CreateSettled (ApiReturns response_refused); SubmitForm])
  = [ ApiRequest (lit "POST") (lit "/api/services") (cleaned salon_1 form_coupe);
      ShowToast (onApiError (platform := examplePlatform) response_refused);
      ApiRequest (lit "POST") (lit "/api/services") (cleaned salon_1 form_coupe) ].
Proof.
  destruct (refused_then_retry (platform := examplePlatform) state_filled
              response_refused form_coupe eq_refl eq_refl eq_refl eq_refl)
    as [Hcreate _].
  rewrite (Hcreate eq_refl). reflexivity.
Defined.


Lemma error_toast_never_empty_witness :
  description (onApiError (platform := examplePlatform) response_refused)
  = str "Nom déjà utilisé".
Proof.
  destruct (error_toast_never_empty (platform := examplePlatform) response_refused)
    as (_ & Hmsg & _).
  rewrite Hmsg; reflexivity.
Defined.


